(** * Order fulfilment and inventory ledger of the back-office API

    A shallow embedding of the stock-adjustment handler
    (src/controllers/product.controller.ts), the order handlers
    (order controller: createOrder, updateOrderStatus, deleteOrder), the
    stock-status derivation (utils/generators.ts, models/Product.ts) and the
    mongoose schemas they write through (InventoryMovement, Order,
    Transaction, Notification).

    Modelling conventions.
    - JavaScript numbers are modelled as integers ([Z]): quantities, prices
      and amounts are whole units.
    - ObjectIds are modelled as natural numbers ([N]).
    - The database is an explicit [State]; every handler is a function in
      the state-and-exception monad [Handler]. A handler that throws after
      it has written keeps its writes, as an Express handler does.
    - Handlers run one at a time (no interleaving of awaits). *)

From Stdlib Require Import ZArith Lia.
From stdpp Require Import gmap strings list fin_maps.
From stdpp Require Import sorting.

Local Open Scope Z_scope.

(** ** Data model *)

Inductive StockStatus := in_stock | low_stock | out_of_stock.

Inductive MovementType := mv_in | mv_out | mv_adjustment.

Inductive OrderStatus :=
  | pending | processing | confirmed | shipped
  | delivered | cancelled | rejected | returned.

Inductive PaymentStatus := unpaid | paid | refunded | partial.

Inductive PaymentMethod := cash | card | online | bank_transfer.

Global Instance StockStatus_eq_dec : EqDecision StockStatus.
Proof. solve_decision. Defined.
Global Instance MovementType_eq_dec : EqDecision MovementType.
Proof. solve_decision. Defined.
Global Instance OrderStatus_eq_dec : EqDecision OrderStatus.
Proof. solve_decision. Defined.

(** Product documents. [quantity], [low_stock_quantity], [stock_status] and
    [publish] are declared by models/Product.ts and used by the product
    controller. The order controller addresses the same documents through
    [status], [price], [stockQuantity] and [soldQuantity], which
    models/Product.ts does not declare (the seed data of server.ts and the
    stock report of the accounting controller use them too). The embedding
    takes every field access of the source at face value: a document
    carries both groups of fields, each under the name the source gives
    it, and no handler ever copies one group into the other. *)
Module Product.
Record t := mk {
    name : string;
    quantity : Z;
    low_stock_quantity : Z;
    stock_status : StockStatus;
    publish : bool;
    status : string;
    price : Z;
    stockQuantity : Z;
    soldQuantity : Z;
}.
End Product.

(** models/InventoryMovement.ts *)
Module InventoryMovement.
Record t := mk {
    product : N;
    type : MovementType;
    quantity : Z;
    previous_quantity : Z;
    new_quantity : Z;
    reason : string;
    reference : option string;
    created_by : option N;
}.
End InventoryMovement.

(** Order model: IOrderItem and IOrder. *)
Module OrderItem.
Record t := mk {
    productId : N;
    name : string;
    price : Z;
    quantity : Z;
    subtotal : Z;
}.
End OrderItem.

Module Order.
Record t := mk {
    _id : N;
    orderNumber : string;
    customerId : option N;
    items : list OrderItem.t;
    subtotal : Z;
    taxAmount : Z;
    shippingAmount : Z;
    discountAmount : Z;
    totalAmount : Z;
    status : OrderStatus;
    paymentMethod : option PaymentMethod;
    paymentStatus : PaymentStatus;
    notes : option string;
    cancelReason : option string;
    processedBy : option N;
    processedAt : option N;
}.
End Order.

(** models/Transaction.ts, the fields updateOrderStatus fills in. *)
Inductive TransactionType := income | expense.
Inductive TransactionCategory :=
  | sale | purchase | cat_return | damage | salary | rent | utility | other.
Inductive TransactionStatus := completed | txn_pending | txn_cancelled.

Module Transaction.
Record t := mk {
    reference : string;
    type : TransactionType;
    category : TransactionCategory;
    amount : Z;
    date : N;
    relatedOrder : option N;
    createdBy : option N;
    paymentMethod : option PaymentMethod;
    status : TransactionStatus;
}.
End Transaction.

(** models/Notification.ts, the payload the order controller sends. *)
Inductive NotificationType := ntf_order | ntf_reject.

Module Notification.
Record t := mk {
    recipientId : N;
    title : string;
    type : NotificationType;
    relatedOrder : N;
}.
End Notification.

(** The collections, and the ObjectId generator. *)
Record State := mkState {
  products : gmap N Product.t;
  movements : list InventoryMovement.t;
  orders : list Order.t;
  transactions : list Transaction.t;
  notifications : list Notification.t;
  next_id : N;
}.

(** ** Errors and the handler monad *)

Inductive Message :=
  | MissingChangeOrType
  | ChangeMustBeNonZero
  | ProductNotFound
  | InsufficientStockAvailable (available requested : Z)
  | InsufficientStockForOperation
  | ProductNotUpdated
  | OrderNeedsItem
  | OrderProductNotFound (productId : N)
  | ProductNotAvailable (name : string)
  | InsufficientStockFor (name : string)
  | OrderNotFound
  | OnlyPendingDeletable.

Inductive ApiError :=
  | badRequest (msg : Message)
  | notFound (msg : Message)
  | ValidationError (model : string)
  | DuplicateKey (index : string).

Inductive Result (A : Type) :=
  | Ok (a : A)
  | Throw (e : ApiError).
Arguments Ok {A} a.
Arguments Throw {A} e.

Definition Handler (A : Type) : Type := State -> State * Result A.

Definition ret {A} (a : A) : Handler A := fun st => (st, Ok a).

Definition throw {A} (e : ApiError) : Handler A := fun st => (st, Throw e).

Definition bind {A B} (c : Handler A) (k : A -> Handler B) : Handler B :=
  fun st =>
    match c st with
    | (st1, Ok a) => k a st1
    | (st1, Throw e) => (st1, Throw e)
    end.

Declare Scope handler_scope.
Delimit Scope handler_scope with handler.
Notation "x <- c ;; k" := (bind c (fun x => k))
  (at level 100, c at next level, right associativity) : handler_scope.
Notation "c ;;; k" := (bind c (fun _ => k))
  (at level 100, right associativity) : handler_scope.
Local Open Scope handler_scope.

(** [for (const x of l) { await f x }] *)
Fixpoint forEach {A} (f : A -> Handler unit) (l : list A) : Handler unit :=
  match l with
  | [] => ret tt
  | x :: l' => f x ;;; forEach f l'
  end.

(** ** utils/generators.ts *)

Definition calculateStockStatus (quantity lowStockQuantity : Z) : StockStatus :=
  if quantity =? 0 then out_of_stock
  else if quantity <=? lowStockQuantity then low_stock
  else in_stock.

(** ** models/Product.ts: the pre-save hook *)

Definition preSave (isModifiedQuantity isModifiedLow : bool) (p : Product.t)
  : Product.t :=
  if isModifiedQuantity || isModifiedLow then
    let s :=
      if Product.quantity p =? 0 then out_of_stock
      else if Product.quantity p <=? Product.low_stock_quantity p then low_stock
      else in_stock in
    Product.mk (Product.name p) (Product.quantity p)
      (Product.low_stock_quantity p) s (Product.publish p)
      (Product.status p) (Product.price p) (Product.stockQuantity p)
      (Product.soldQuantity p)
  else p.

(** ** Mongoose primitives on the Product collection *)

Definition Product_findById (id : N) : Handler (option Product.t) :=
  fun st => (st, Ok (products st !! id)).

Definition setProducts (ps : gmap N Product.t) (st : State) : State :=
  mkState ps (movements st) (orders st) (transactions st)
    (notifications st) (next_id st).

(** [Product.findOneAndUpdate({_id: id, ...cond}, upd, {new: true})]: one
    atomic step; the document is returned after the update, [None] when no
    document matches. Update validators are off (mongoose's default). *)
Definition Product_findOneAndUpdate (id : N) (cond : Product.t -> bool)
    (upd : Product.t -> Product.t) : Handler (option Product.t) :=
  fun st =>
    match products st !! id with
    | Some p =>
        if cond p then
          (setProducts (<[id := upd p]> (products st)) st, Ok (Some (upd p)))
        else (st, Ok None)
    | None => (st, Ok None)
    end.

Definition Product_findByIdAndUpdate (id : N) (upd : Product.t -> Product.t)
  : Handler (option Product.t) :=
  Product_findOneAndUpdate id (fun _ => true) upd.

(** ** InventoryMovement.create: schema validation, then insert *)

Definition validateMovement (m : InventoryMovement.t) : bool :=
  (0 <=? InventoryMovement.previous_quantity m)
  && (0 <=? InventoryMovement.new_quantity m).

Definition InventoryMovement_create (m : InventoryMovement.t) : Handler unit :=
  fun st =>
    if validateMovement m then
      (mkState (products st) (movements st ++ [m]) (orders st)
         (transactions st) (notifications st) (next_id st), Ok tt)
    else (st, Throw (ValidationError "InventoryMovement")).

(** ** product.controller.ts: adjustStock *)

Record StockBody := mkStockBody {
  change : Z;
  type : string;
  reason : option string;
  reference : option string;
}.

(** utils/validators.ts: adjustStockSchema, run by the route before the
    handler. *)
Definition adjustStockSchema (b : StockBody) : bool :=
  negb (change b =? 0)
  && (String.eqb (type b) "in" || String.eqb (type b) "out"
      || String.eqb (type b) "adjustment").

Record StockResponse := mkStockResponse {
  resp_product : Product.t;
  resp_type : MovementType;
  resp_previous_quantity : Z;
  resp_new_quantity : Z;
  resp_change : Z;
}.

(** The block under "Determine movement type": the movement type and the
    new quantity the handler computes, or the insufficient-stock error. *)
Definition determineMovement (type : string) (changeAmount previousQuantity : Z)
  : Result (MovementType * Z) :=
  if String.eqb type "in" || (0 <? changeAmount) then
    Ok (mv_in, previousQuantity + Z.abs changeAmount)
  else if String.eqb type "out" || (changeAmount <? 0) then
    let requestedAmount := Z.abs changeAmount in
    if previousQuantity <? requestedAmount then
      Throw (badRequest (InsufficientStockAvailable previousQuantity requestedAmount))
    else Ok (mv_out, previousQuantity - requestedAmount)
  else Ok (mv_adjustment, changeAmount).

(** [$inc: {quantity: changeAmount}, $set: {stock_status: s}] *)
Definition incQuantitySetStatus (changeAmount : Z) (s : StockStatus)
    (p : Product.t) : Product.t :=
  Product.mk (Product.name p) (Product.quantity p + changeAmount)
    (Product.low_stock_quantity p) s (Product.publish p)
    (Product.status p) (Product.price p) (Product.stockQuantity p)
    (Product.soldQuantity p).

Definition defaultReason (movementType : MovementType) : string :=
  match movementType with
  | mv_in => "Stock added"
  | mv_out => "Stock removed"
  | mv_adjustment => "Stock adjusted"
  end.

(** [reason || `Stock ${...}`] *)
Definition reasonOrDefault (reason : option string) (movementType : MovementType)
  : string :=
  match reason with
  | Some r => if String.eqb r "" then defaultReason movementType else r
  | None => defaultReason movementType
  end.

Definition adjustStock (productId : N) (body : StockBody)
  : Handler StockResponse :=
  if (change body =? 0) || String.eqb (type body) "" then
    throw (badRequest MissingChangeOrType)
  else
    let changeAmount := change body in
    if changeAmount =? 0 then throw (badRequest ChangeMustBeNonZero)
    else
      found <- Product_findById productId ;;
      match found with
      | None => throw (notFound ProductNotFound)
      | Some product =>
          let previousQuantity := Product.quantity product in
          match determineMovement (type body) changeAmount previousQuantity with
          | Throw e => throw e
          | Ok (movementType, newQuantity) =>
              updated <-
                Product_findOneAndUpdate productId
                  (fun p =>
                     if decide (movementType = mv_out)
                     then Z.abs changeAmount <=? Product.quantity p
                     else true)
                  (incQuantitySetStatus changeAmount
                     (calculateStockStatus newQuantity
                        (Product.low_stock_quantity product))) ;;
              match updated with
              | None =>
                  if decide (movementType = mv_out)
                  then throw (badRequest InsufficientStockForOperation)
                  else throw (notFound ProductNotUpdated)
              | Some updatedProduct =>
                  InventoryMovement_create
                    (InventoryMovement.mk productId movementType
                       (Z.abs changeAmount) previousQuantity
                       (Product.quantity updatedProduct)
                       (reasonOrDefault (reason body) movementType)
                       (reference body) None) ;;;
                  ret (mkStockResponse updatedProduct movementType
                         previousQuantity (Product.quantity updatedProduct)
                         changeAmount)
              end
          end
      end.

(** ** product.controller.ts: updateProduct

    The request bodies modelled here carry only the inventory fields
    ([quantity], [low_stock_quantity]): with [name], [sku], [category],
    [brand], [discount] and [gallery_images] absent, the slug, SKU,
    category, brand, discount and gallery branches of the handler are
    skipped. *)

Record ProductUpdate := mkProductUpdate {
  upd_quantity : option Z;
  upd_low_stock_quantity : option Z;
}.

(** [Object.assign(product, data)], [data.stock_status] included. *)
Definition assignProduct (quantity' low' : option Z)
    (status' : option StockStatus) (p : Product.t) : Product.t :=
  Product.mk (Product.name p)
    (default (Product.quantity p) quantity')
    (default (Product.low_stock_quantity p) low')
    (default (Product.stock_status p) status')
    (Product.publish p) (Product.status p) (Product.price p)
    (Product.stockQuantity p) (Product.soldQuantity p).

Definition validateProduct (p : Product.t) : bool :=
  (0 <=? Product.quantity p) && (0 <=? Product.low_stock_quantity p).

(** [product.save()] of a document loaded as [original]: schema validation,
    the pre-save hook, then the write. *)
Definition Product_save (id : N) (original p : Product.t) : Handler Product.t :=
  fun st =>
    if validateProduct p then
      let saved :=
        preSave (negb (Product.quantity p =? Product.quantity original))
          (negb (Product.low_stock_quantity p
                 =? Product.low_stock_quantity original)) p in
      (setProducts (<[id := saved]> (products st)) st, Ok saved)
    else (st, Throw (ValidationError "Product")).

Definition updateProduct (id : N) (data : ProductUpdate) : Handler Product.t :=
  found <- Product_findById id ;;
  match found with
  | None => throw (notFound ProductNotFound)
  | Some product =>
      let data_stock_status :=
        match upd_quantity data with
        | Some q =>
            let lowStockQty :=
              match upd_low_stock_quantity data with
              | Some l => l
              | None => Product.low_stock_quantity product
              end in
            Some (calculateStockStatus q lowStockQty)
        | None => None
        end in
      Product_save id product
        (assignProduct (upd_quantity data) (upd_low_stock_quantity data)
           data_stock_status product)
  end.

(** ** Order controller *)

Record ItemRequest := mkItemRequest {
  item_productId : N;
  item_quantity : Z;
}.

Record OrderBody := mkOrderBody {
  body_customerId : option N;
  body_items : list ItemRequest;
  body_paymentMethod : option PaymentMethod;
  body_notes : option string;
}.

(** What a request brings besides its body: the authenticated user, the
    clock, and the values of generateOrderNumber and
    generateTransactionRef. *)
Record Env := mkEnv {
  userId : N;
  now : N;
  newOrderNumber : string;
  newTransactionRef : string;
}.

(** [$inc: {stockQuantity: d}] and [$inc: {soldQuantity: d}] *)
Definition incStockQuantity (d : Z) (p : Product.t) : Product.t :=
  Product.mk (Product.name p) (Product.quantity p)
    (Product.low_stock_quantity p) (Product.stock_status p)
    (Product.publish p) (Product.status p) (Product.price p)
    (Product.stockQuantity p + d) (Product.soldQuantity p).

Definition incSoldQuantity (d : Z) (p : Product.t) : Product.t :=
  Product.mk (Product.name p) (Product.quantity p)
    (Product.low_stock_quantity p) (Product.stock_status p)
    (Product.publish p) (Product.status p) (Product.price p)
    (Product.stockQuantity p) (Product.soldQuantity p + d).

(** Order schema validators. *)
Definition validateOrderItem (i : OrderItem.t) : bool :=
  negb (String.eqb (OrderItem.name i) "")
  && (0 <=? OrderItem.price i)
  && (1 <=? OrderItem.quantity i)
  && (0 <=? OrderItem.subtotal i).

Definition validateOrder (o : Order.t) : bool :=
  negb (String.eqb (Order.orderNumber o) "")
  && forallb validateOrderItem (Order.items o)
  && (0 <=? Order.subtotal o)
  && (0 <=? Order.taxAmount o)
  && (0 <=? Order.shippingAmount o)
  && (0 <=? Order.discountAmount o)
  && (0 <=? Order.totalAmount o)
  && bool_decide (is_Some (Order.paymentMethod o)).

Definition setOrders (os : list Order.t) (n : N) (st : State) : State :=
  mkState (products st) (movements st) os (transactions st)
    (notifications st) n.

(** [Order.create(doc)]: a fresh [_id], schema validation, the unique index
    on [orderNumber], then the insert. *)
Definition Order_create (doc : N -> Order.t) : Handler Order.t :=
  fun st =>
    let o := doc (next_id st) in
    if validateOrder o then
      if existsb (fun o' => String.eqb (Order.orderNumber o') (Order.orderNumber o))
           (orders st)
      then (st, Throw (DuplicateKey "orderNumber"))
      else (setOrders (orders st ++ [o]) (N.succ (next_id st)) st, Ok o)
    else (st, Throw (ValidationError "Order")).

Definition Order_findById (id : N) : Handler (option Order.t) :=
  fun st => (st, Ok (find (fun o => N.eqb (Order._id o) id) (orders st))).

(** [order.save()] of a loaded document. *)
Definition Order_save (o : Order.t) : Handler unit :=
  fun st =>
    if validateOrder o then
      (setOrders
         (map (fun o' => if N.eqb (Order._id o') (Order._id o) then o else o')
            (orders st))
         (next_id st) st, Ok tt)
    else (st, Throw (ValidationError "Order")).

(** [order.deleteOne()] *)
Definition Order_deleteOne (o : Order.t) : Handler unit :=
  fun st =>
    (setOrders
       (filter (fun o' => Order._id o' ≠ Order._id o) (orders st))
       (next_id st) st, Ok tt).

Definition validateTransaction (t : Transaction.t) : bool :=
  negb (String.eqb (Transaction.reference t) "")
  && (0 <=? Transaction.amount t).

(** [Transaction.create(doc)]: schema validation, the unique index on
    [reference], then the insert. *)
Definition Transaction_create (t : Transaction.t) : Handler unit :=
  fun st =>
    if validateTransaction t then
      if existsb
           (fun t' => String.eqb (Transaction.reference t') (Transaction.reference t))
           (transactions st)
      then (st, Throw (DuplicateKey "reference"))
      else
        (mkState (products st) (movements st) (orders st)
           (transactions st ++ [t]) (notifications st) (next_id st), Ok tt)
    else (st, Throw (ValidationError "Transaction")).

Definition Notification_create (n : Notification.t) : Handler unit :=
  fun st =>
    (mkState (products st) (movements st) (orders st) (transactions st)
       (notifications st ++ [n]) (next_id st), Ok tt).

(** createOrder, the loop under "Verify products and calculate totals". *)
Fixpoint verifyItems (items : list ItemRequest) (subtotal : Z)
    (orderItems : list OrderItem.t) : Handler (Z * list OrderItem.t) :=
  match items with
  | [] => ret (subtotal, orderItems)
  | item :: rest =>
      found <- Product_findById (item_productId item) ;;
      match found with
      | None => throw (badRequest (OrderProductNotFound (item_productId item)))
      | Some product =>
          if negb (String.eqb (Product.status product) "active") then
            throw (badRequest (ProductNotAvailable (Product.name product)))
          else if Product.stockQuantity product <? item_quantity item then
            throw (badRequest (InsufficientStockFor (Product.name product)))
          else
            let itemSubtotal := Product.price product * item_quantity item in
            verifyItems rest (subtotal + itemSubtotal)
              (orderItems ++
                 [OrderItem.mk (item_productId item) (Product.name product)
                    (Product.price product) (item_quantity item) itemSubtotal])
      end
  end.

Definition createOrder (body : OrderBody) (env : Env) : Handler Order.t :=
  match body_items body with
  | [] => throw (badRequest OrderNeedsItem)
  | items =>
      verified <- verifyItems items 0 [] ;;
      let '(subtotal, orderItems) := verified in
      let taxAmount := 0 in
      let shippingAmount := 0 in
      let discountAmount := 0 in
      let totalAmount := subtotal + taxAmount + shippingAmount - discountAmount in
      order <-
        Order_create (fun id =>
          Order.mk id (newOrderNumber env)
            (match body_customerId body with
             | Some c => Some c
             | None => Some (userId env)
             end)
            orderItems subtotal taxAmount shippingAmount discountAmount
            totalAmount pending (body_paymentMethod body) unpaid
            (body_notes body) None None None) ;;
      forEach
        (fun item =>
           Product_findByIdAndUpdate (item_productId item)
             (incStockQuantity (- item_quantity item)) ;;; ret tt)
        items ;;;
      Notification_create
        (Notification.mk (userId env) "New Order" ntf_order (Order._id order)) ;;;
      ret order
  end.

Definition statusName (s : OrderStatus) : string :=
  match s with
  | pending => "pending"
  | processing => "processing"
  | confirmed => "confirmed"
  | shipped => "shipped"
  | delivered => "delivered"
  | cancelled => "cancelled"
  | rejected => "rejected"
  | returned => "returned"
  end.

Definition truthy (s : option string) : bool :=
  match s with
  | Some t => negb (String.eqb t "")
  | None => false
  end.

Definition setStatus (status : OrderStatus) (by_ at_ : N) (o : Order.t) : Order.t :=
  Order.mk (Order._id o) (Order.orderNumber o) (Order.customerId o)
    (Order.items o) (Order.subtotal o) (Order.taxAmount o)
    (Order.shippingAmount o) (Order.discountAmount o) (Order.totalAmount o)
    status (Order.paymentMethod o) (Order.paymentStatus o) (Order.notes o)
    (Order.cancelReason o) (Some by_) (Some at_).

Definition setNotes (notes : option string) (o : Order.t) : Order.t :=
  Order.mk (Order._id o) (Order.orderNumber o) (Order.customerId o)
    (Order.items o) (Order.subtotal o) (Order.taxAmount o)
    (Order.shippingAmount o) (Order.discountAmount o) (Order.totalAmount o)
    (Order.status o) (Order.paymentMethod o) (Order.paymentStatus o) notes
    (Order.cancelReason o) (Order.processedBy o) (Order.processedAt o).

Definition setPaymentStatus (s : PaymentStatus) (o : Order.t) : Order.t :=
  Order.mk (Order._id o) (Order.orderNumber o) (Order.customerId o)
    (Order.items o) (Order.subtotal o) (Order.taxAmount o)
    (Order.shippingAmount o) (Order.discountAmount o) (Order.totalAmount o)
    (Order.status o) (Order.paymentMethod o) s (Order.notes o)
    (Order.cancelReason o) (Order.processedBy o) (Order.processedAt o).

Definition setCancelReason (r : option string) (o : Order.t) : Order.t :=
  Order.mk (Order._id o) (Order.orderNumber o) (Order.customerId o)
    (Order.items o) (Order.subtotal o) (Order.taxAmount o)
    (Order.shippingAmount o) (Order.discountAmount o) (Order.totalAmount o)
    (Order.status o) (Order.paymentMethod o) (Order.paymentStatus o)
    (Order.notes o) r (Order.processedBy o) (Order.processedAt o).

(** The income transaction posted on delivery. *)
Definition saleTransaction (order : Order.t) (env : Env) : Transaction.t :=
  Transaction.mk (newTransactionRef env) income sale (Order.totalAmount order)
    (now env) (Some (Order._id order)) (Some (userId env))
    (Order.paymentMethod order) completed.

(** "Update sold quantities" and "Return stock" loops. *)
Definition addSold (items : list OrderItem.t) : Handler unit :=
  forEach
    (fun item =>
       Product_findByIdAndUpdate (OrderItem.productId item)
         (incSoldQuantity (OrderItem.quantity item)) ;;; ret tt)
    items.

Definition returnStock (items : list OrderItem.t) : Handler unit :=
  forEach
    (fun item =>
       Product_findByIdAndUpdate (OrderItem.productId item)
         (incStockQuantity (OrderItem.quantity item)) ;;; ret tt)
    items.

Definition updateOrderStatus (id : N) (status : OrderStatus)
    (notes : option string) (env : Env) : Handler Order.t :=
  found <- Order_findById id ;;
  match found with
  | None => throw (notFound OrderNotFound)
  | Some order0 =>
      let oldStatus := Order.status order0 in
      let order1 := setStatus status (userId env) (now env) order0 in
      let order2 := if truthy notes then setNotes notes order1 else order1 in
      order3 <-
        (if bool_decide (status = delivered)
            && negb (bool_decide (oldStatus = delivered))
         then
           let order := setPaymentStatus paid order2 in
           addSold (Order.items order) ;;;
           Transaction_create (saleTransaction order env) ;;;
           ret order
         else ret order2) ;;
      order4 <-
        (if bool_decide (status = cancelled) || bool_decide (status = rejected)
         then
           returnStock (Order.items order3) ;;;
           ret (if bool_decide (status = rejected)
                then setCancelReason notes order3
                else order3)
         else ret order3) ;;
      Order_save order4 ;;;
      match Order.customerId order4 with
      | Some customer =>
          Notification_create
            (Notification.mk customer ("Order " +:+ statusName status)
               (if bool_decide (status = rejected) then ntf_reject else ntf_order)
               (Order._id order4))
      | None => ret tt
      end ;;;
      ret order4
  end.

Definition deleteOrder (id : N) : Handler unit :=
  found <- Order_findById id ;;
  match found with
  | None => throw (notFound OrderNotFound)
  | Some order =>
      if negb (bool_decide (Order.status order = pending)) then
        throw (badRequest OnlyPendingDeletable)
      else
        returnStock (Order.items order) ;;;
        Order_deleteOne order
  end.

(** ** Specification-side definitions *)

(** The stock-status rule [f] as the specification words it: three cases,
    read top to bottom. *)
Inductive StatusRule : Z -> Z -> StockStatus -> Prop :=
  | rule_out_of_stock l : StatusRule 0 l out_of_stock
  | rule_low_stock q l : q ≠ 0 -> q <= l -> StatusRule q l low_stock
  | rule_in_stock q l : q ≠ 0 -> l < q -> StatusRule q l in_stock.

(** The inventory fields of a product document: what the stock-adjustment
    handler owns. *)
Definition ledger (p : Product.t) : Z * Z * StockStatus :=
  (Product.quantity p, Product.low_stock_quantity p, Product.stock_status p).

(** Sum of [d item] over the items that refer to product [id]. *)
Fixpoint total {A} (pid : A -> N) (d : A -> Z) (id : N) (items : list A) : Z :=
  match items with
  | [] => 0
  | item :: rest =>
      if N.eqb (pid item) id then d item + total pid d id rest
      else total pid d id rest
  end.

(** Total quantity requested of product [id] in a request's item list, and
    total quantity of product [id] in an order's line items. *)
Definition requested (id : N) (items : list ItemRequest) : Z :=
  total item_productId item_quantity id items.

Definition ordered (id : N) (items : list OrderItem.t) : Z :=
  total OrderItem.productId OrderItem.quantity id items.

(** The products after a loop of [$inc] updates, one per item. *)
Definition incAll {A} (pid : A -> N) (upd : A -> Product.t -> Product.t)
    (items : list A) (ps : gmap N Product.t) : gmap N Product.t :=
  foldl (fun m item => alter (upd item) (pid item) m) ps items.

(** The line item createOrder snapshots for a requested item. *)
Definition snapshot (st : State) (item : ItemRequest) : OrderItem.t :=
  match products st !! item_productId item with
  | Some product =>
      OrderItem.mk (item_productId item) (Product.name product)
        (Product.price product) (item_quantity item)
        (Product.price product * item_quantity item)
  | None => OrderItem.mk (item_productId item) "" 0 (item_quantity item) 0
  end.

Definition sumSubtotals (items : list OrderItem.t) : Z :=
  foldr (fun i acc => OrderItem.subtotal i + acc) 0 items.

(** The order document createOrder builds in state [st]. *)
Definition newOrder (body : OrderBody) (env : Env) (st : State) : Order.t :=
  let orderItems := map (snapshot st) (body_items body) in
  let subtotal := sumSubtotals orderItems in
  Order.mk (next_id st) (newOrderNumber env)
    (match body_customerId body with
     | Some c => Some c
     | None => Some (userId env)
     end)
    orderItems subtotal 0 0 0 (subtotal + 0 + 0 - 0) pending
    (body_paymentMethod body) unpaid (body_notes body) None None None.

(** Two states agree on the inventory ledger: same movement records, and
    every product has the same quantity, threshold and stock status. *)
Definition sameLedger (st st' : State) : Prop :=
  movements st' = movements st
  /\ forall id, ledger <$> products st' !! id = ledger <$> products st !! id.

(** A handler that never changes the inventory ledger. *)
Definition keepsLedger {A} (h : Handler A) : Prop :=
  forall st, sameLedger st (fst (h st)).

(** An item the verification loop of createOrder turns down in state [st]:
    product missing, not active, or short of stock. *)
Definition itemRejected (st : State) (item : ItemRequest) : bool :=
  match products st !! item_productId item with
  | None => true
  | Some product =>
      negb (String.eqb (Product.status product) "active")
      || (Product.stockQuantity product <? item_quantity item)
  end.

(** createOrder goes through: the item list is not empty, no item is
    turned down, and the order document passes the Order schema and the
    unique index on its number. *)
Definition orderAccepted (body : OrderBody) (env : Env) (st : State) : bool :=
  negb (bool_decide (body_items body = []))
  && negb (existsb (itemRejected st) (body_items body))
  && validateOrder (newOrder body env st)
  && negb (existsb
             (fun o' => String.eqb (Order.orderNumber o')
                          (Order.orderNumber (newOrder body env st)))
             (orders st)).

(** The state createOrder leaves when it goes through. *)
Definition placed (body : OrderBody) (env : Env) (st : State) : State :=
  mkState
    (incAll item_productId (fun item => incStockQuantity (- item_quantity item))
       (body_items body) (products st))
    (movements st)
    (orders st ++ [newOrder body env st])
    (transactions st)
    (notifications st
     ++ [Notification.mk (userId env) "New Order" ntf_order (next_id st)])
    (N.succ (next_id st)).

(** updateOrderStatus, piece by piece: the order after the unconditional
    assignments, the stored orders after [order.save()], and the
    notifications after the customer has been told. *)
Definition processed (status : OrderStatus) (notes : option string) (env : Env)
    (order : Order.t) : Order.t :=
  let order1 := setStatus status (userId env) (now env) order in
  if truthy notes then setNotes notes order1 else order1.

Definition saved (o : Order.t) (os : list Order.t) : list Order.t :=
  map (fun o' => if N.eqb (Order._id o') (Order._id o) then o else o') os.

Definition notified (o : Order.t) (status : OrderStatus)
    (ns : list Notification.t) : list Notification.t :=
  match Order.customerId o with
  | Some customer =>
      ns ++ [Notification.mk customer ("Order " +:+ statusName status)
               (if bool_decide (status = rejected) then ntf_reject else ntf_order)
               (Order._id o)]
  | None => ns
  end.

Definition findOrder (id : N) (st : State) : option Order.t :=
  find (fun o => N.eqb (Order._id o) id) (orders st).

(** A run of stock adjustments on one product; failed requests are answered
    with an error and the run goes on. *)
Definition adjustAll (id : N) (bodies : list StockBody) (st : State) : State :=
  foldl (fun s body => fst (adjustStock id body s)) st bodies.

(** "Every write of [quantity] between [st] and [st'] went through the
    stock-adjustment handler": a changed quantity comes with the movement
    record that handler appends. *)
Definition quantityWrittenViaAdjustStock (st st' : State) : Prop :=
  forall id p p',
    products st !! id = Some p -> products st' !! id = Some p' ->
    Product.quantity p' ≠ Product.quantity p ->
    exists m, In m (movements st') /\ InventoryMovement.product m = id
              /\ InventoryMovement.previous_quantity m = Product.quantity p
              /\ InventoryMovement.new_quantity m = Product.quantity p'.

(** Concrete documents for the examples below. *)
Definition widget (quantity low : Z) (s : StockStatus) (stock : Z) : Product.t :=
  Product.mk "Widget" quantity low s true "active" 10 stock 0.

Definition shop (quantity low : Z) (s : StockStatus) (stock : Z) : State :=
  mkState {[ 1%N := widget quantity low s stock ]} [] [] [] [] 100.

Definition clerk : Env := mkEnv 7 0 "ORD-1" "TXN-1".

Definition oneWidgetOrder (n : Z) (s : OrderStatus) (pay : PaymentStatus) : Order.t :=
  Order.mk 100 "ORD-1" (Some 7%N) [OrderItem.mk 1 "Widget" 10 n (10 * n)]
    (10 * n) 0 0 0 (10 * n) s (Some cash) pay None None None None.

Definition shopWithOrder (stock sold : Z) (o : Order.t) (txns : list Transaction.t)
  : State :=
  mkState {[ 1%N := Product.mk "Widget" 5 2 in_stock true "active" 10 stock sold ]}
    [] [o] txns [] 101.

(** The order a successful updateOrderStatus answers with, in every case. *)
Definition transitioned (status : OrderStatus) (notes : option string)
    (env : Env) (order : Order.t) : Order.t :=
  let order2 := processed status notes env order in
  let order3 :=
    if bool_decide (status = delivered)
       && negb (bool_decide (Order.status order = delivered))
    then setPaymentStatus paid order2 else order2 in
  if bool_decide (status = rejected) then setCancelReason notes order3 else order3.

(** ** utils/generators.ts: generateSlug

    Strings are sequences of code units below 256 (the [ascii] type read as
    Latin-1); on these [toLowerCase] maps A-Z and the accented capitals
    U+00C0-U+00DE (U+00D7 apart) to the letter 32 places up and leaves
    every other unit alone. *)

Definition code (c : Ascii.ascii) : N := Ascii.N_of_ascii c.

Definition toLowerCaseUnit (c : Ascii.ascii) : Ascii.ascii :=
  if ((65 <=? code c) && (code c <=? 90))%N
     || ((192 <=? code c) && (code c <=? 222) && negb (code c =? 215))%N
  then Ascii.ascii_of_N (code c + 32)
  else c.

(** The character class [a-z0-9] *)
Definition isSlugAlnum (c : Ascii.ascii) : bool :=
  ((97 <=? code c) && (code c <=? 122))%N
  || ((48 <=? code c) && (code c <=? 57))%N.

(** ['-'] *)
Definition dash : Ascii.ascii := Ascii.ascii_of_N 45.

Definition isDash (c : Ascii.ascii) : bool := Ascii.eqb c dash.

(** [.replace(/[^a-z0-9]+/g, '-')]: every maximal run of characters outside
    the class becomes one dash; [inRun] says the previous character was
    outside the class. *)
Fixpoint replaceRuns (inRun : bool) (l : list Ascii.ascii) : list Ascii.ascii :=
  match l with
  | [] => []
  | c :: rest =>
      if isSlugAlnum c then c :: replaceRuns false rest
      else if inRun then replaceRuns true rest
      else dash :: replaceRuns true rest
  end.

(** [.replace(/^-+|-+$/g, '')]: the leading and the trailing run of
    dashes are removed. *)
Fixpoint stripLeadingDashes (l : list Ascii.ascii) : list Ascii.ascii :=
  match l with
  | [] => []
  | c :: rest => if isDash c then stripLeadingDashes rest else l
  end.

Fixpoint stripTrailingDashes (l : list Ascii.ascii) : list Ascii.ascii :=
  match l with
  | [] => []
  | c :: rest =>
      match stripTrailingDashes rest with
      | [] => if isDash c then [] else [c]
      | rest' => c :: rest'
      end
  end.

Definition slugUnits (text : list Ascii.ascii) : list Ascii.ascii :=
  stripTrailingDashes
    (stripLeadingDashes (replaceRuns false (map toLowerCaseUnit text))).

Definition generateSlug (text : string) : string :=
  String.string_of_list_ascii (slugUnits (String.list_ascii_of_string text)).

(** A well-formed slug: characters of [a-z0-9-] only, no dash at either
    end, no two dashes in a row. *)
Fixpoint noDoubleDash (l : list Ascii.ascii) : bool :=
  match l with
  | c1 :: (c2 :: _) as rest => negb (isDash c1 && isDash c2) && noDoubleDash rest
  | _ => true
  end.

Definition startsWithDash (l : list Ascii.ascii) : bool :=
  match l with
  | c :: _ => isDash c
  | [] => false
  end.

Definition endsWithDash (l : list Ascii.ascii) : bool :=
  match last l with
  | Some c => isDash c
  | None => false
  end.

Definition isSlug (l : list Ascii.ascii) : bool :=
  forallb (fun c => isSlugAlnum c || isDash c) l
  && noDoubleDash l
  && negb (startsWithDash l)
  && negb (endsWithDash l).


(** ** product.controller.ts: getLowStockProducts and deleteProduct *)

(** [{stock_status: {$in: ['low_stock', 'out_of_stock']}, publish: true}] *)
Definition lowStockQuery (p : Product.t) : bool :=
  (bool_decide (Product.stock_status p = low_stock)
   || bool_decide (Product.stock_status p = out_of_stock))
  && Product.publish p.

(** [.sort({quantity: 1})] *)
Definition byQuantity : relation (N * Product.t) :=
  fun a b => (Product.quantity (snd a) <= Product.quantity (snd b))%Z.

Global Instance byQuantity_dec a b : Decision (byQuantity a b).
Proof. unfold byQuantity. apply _. Defined.

(** The documents are returned with their ids, in ascending order of
    quantity; the order among equal quantities is the store's. *)
Definition getLowStockProducts : Handler (list (N * Product.t)) :=
  fun st =>
    (st,
     Ok (merge_sort byQuantity
           (filter (fun kp => lowStockQuery (snd kp) = true)
              (map_to_list (products st))))).

Definition setPublish (b : bool) (p : Product.t) : Product.t :=
  Product.mk (Product.name p) (Product.quantity p)
    (Product.low_stock_quantity p) (Product.stock_status p) b
    (Product.status p) (Product.price p) (Product.stockQuantity p)
    (Product.soldQuantity p).

(** [product.deleteOne()] *)
Definition Product_deleteOne (id : N) : Handler unit :=
  fun st => (setProducts (delete id (products st)) st, Ok tt).

(** deleteProduct. [deleteMode] is the value of the environment variable
    PRODUCT_DELETE_MODE, [None] when it is not set. The product documents
    of this model carry no category reference, so the category counter
    update of the hard branch ([if (categoryId)]) does not run. *)
Definition deleteProduct (deleteMode : option string) (id : N) : Handler unit :=
  found <- Product_findById id ;;
  match found with
  | None => throw (notFound ProductNotFound)
  | Some product =>
      let mode :=
        match deleteMode with
        | Some m => if String.eqb m "" then "soft" else m
        | None => "soft"
        end in
      if String.eqb mode "hard" then Product_deleteOne id
      else
        Product_save id product (setPublish false product) ;;;
        ret tt
  end.


(** ** order controller: getOrderStats *)

Module StatusGroup.
Record t := mk {
  _id : OrderStatus;
  count : Z;
  totalAmount : Z
}.
End StatusGroup.

Module OrderStats.
Record t := mk {
  stats : list StatusGroup.t;
  total : Z;
  totalRevenue : Z
}.
End OrderStats.

(** [{$sum: '$totalAmount'}] over a list of documents. *)
Definition sumTotalAmount (os : list Order.t) : Z :=
  foldr (fun o acc => Order.totalAmount o + acc) 0 os.

(** [{$match: {status: s}}] *)
Definition withStatus (s : OrderStatus) (os : list Order.t) : list Order.t :=
  filter (fun o => Order.status o = s) os.

(** [{$group: {_id: '$status', count: {$sum: 1}, totalAmount: {$sum:
    '$totalAmount'}}}]: one document for each status that occurs. MongoDB
    leaves the order of the groups open; they are listed here by first
    occurrence, and nothing below depends on it. *)
Definition groupByStatus (os : list Order.t) : list StatusGroup.t :=
  map (fun s =>
         StatusGroup.mk s (Z.of_nat (length (withStatus s os)))
           (sumTotalAmount (withStatus s os)))
      (remove_dups (map Order.status os)).

(** [[{$match: {status: 'delivered'}}, {$group: {_id: null, total: {$sum:
    '$totalAmount'}}}]]: no document when nothing matches, one otherwise. *)
Definition deliveredTotal (os : list Order.t) : list Z :=
  match withStatus delivered os with
  | [] => []
  | ds => [sumTotalAmount ds]
  end.

Definition getOrderStats : Handler OrderStats.t :=
  fun st =>
    let stats := groupByStatus (orders st) in
    let total := Z.of_nat (length (orders st)) in
    let totalRevenue := deliveredTotal (orders st) in
    (st,
     Ok (OrderStats.mk stats total
           (match totalRevenue with
            | r :: _ => if r =? 0 then 0 else r
            | [] => 0
            end))).

(** Sum of a list of numbers, and of a quantity over a list of orders. *)
Definition sumZ (l : list Z) : Z := foldr Z.add 0 l.

Definition sumOver (f : Order.t -> Z) (os : list Order.t) : Z :=
  foldr (fun o acc => f o + acc) 0 os.


(** ** Stock-status derivation *)

Lemma calculateStockStatus_rule q l : StatusRule q l (calculateStockStatus q l).
Proof.
  unfold calculateStockStatus.
  destruct (Z.eqb_spec q 0) as [-> | Hq]; [constructor |].
  destruct (Z.leb_spec q l); constructor; lia.
Qed.

Lemma StatusRule_functional q l s1 s2 :
  StatusRule q l s1 -> StatusRule q l s2 -> s1 = s2.
Proof. intros H1 H2; inversion H1; inversion H2; subst; try reflexivity; lia. Qed.

(** C5. The stock-status derivation is the function f of the
    specification: quantity 0 gives out_of_stock whatever the threshold; a
    non-zero quantity at or below the threshold gives low_stock (so equality
    with the threshold is low_stock); anything above gives in_stock. The
    pre-save hook of the Product model computes the same function. *)
Theorem calculateStockStatus_is_f :
  forall q l : Z,
    (forall s, calculateStockStatus q l = s <-> StatusRule q l s)
    /\ calculateStockStatus 0 l = out_of_stock
    /\ (l ≠ 0 -> calculateStockStatus l l = low_stock)
    /\ (forall p mq ml, mq || ml = true ->
          Product.quantity p = q -> Product.low_stock_quantity p = l ->
          Product.stock_status (preSave mq ml p) = calculateStockStatus q l).
Proof.
  intros q l. repeat split.
  - intros <-. apply calculateStockStatus_rule.
  - intros H. eapply StatusRule_functional; [apply calculateStockStatus_rule | exact H].
  - intros Hl. unfold calculateStockStatus.
    destruct (Z.eqb_spec l 0); [contradiction |].
    destruct (Z.leb_spec l l); [reflexivity | lia].
  - intros p mq ml Hm <- <-. unfold preSave. rewrite Hm. reflexivity.
Qed.

(** ** The stock-adjustment handler *)

Ltac run_handler :=
  unfold bind, ret, throw, Product_findById, Product_findOneAndUpdate,
    Product_findByIdAndUpdate, InventoryMovement_create in *.

(** What a successful call did, step by step. *)
Lemma adjustStock_Ok id body st st' resp :
  adjustStock id body st = (st', Ok resp) ->
  exists p mt nq,
    change body ≠ 0
    /\ products st !! id = Some p
    /\ determineMovement (type body) (change body) (Product.quantity p) = Ok (mt, nq)
    /\ let p' := incQuantitySetStatus (change body)
                   (calculateStockStatus nq (Product.low_stock_quantity p)) p in
       exists m,
         InventoryMovement.product m = id
         /\ InventoryMovement.type m = mt
         /\ InventoryMovement.quantity m = Z.abs (change body)
         /\ InventoryMovement.previous_quantity m = Product.quantity p
         /\ InventoryMovement.new_quantity m = Product.quantity p'
         /\ validateMovement m = true
         /\ st' = mkState (<[id := p']> (products st)) (movements st ++ [m])
                    (orders st) (transactions st) (notifications st) (next_id st)
         /\ resp = mkStockResponse p' mt (Product.quantity p) (Product.quantity p')
                     (change body).
Proof.
  unfold adjustStock. intros H.
  destruct ((change body =? 0) || String.eqb (type body) "") eqn:Hv;
    [discriminate H |].
  apply orb_false_elim in Hv as [Hc _]. rewrite Hc in H.
  apply Z.eqb_neq in Hc.
  run_handler.
  destruct (products st !! id) as [p |] eqn:Hp; [| discriminate H].
  destruct (determineMovement (type body) (change body) (Product.quantity p))
    as [[mt nq] | e] eqn:Hd; [| discriminate H].
  rewrite Hp in H.
  exists p, mt, nq. split; [exact Hc |]. split; [reflexivity |].
  split; [exact Hd |]. cbn zeta.
  match type of H with
  | context [if ?c then _ else _] => destruct c eqn:Hcond
  end; [| destruct (decide (mt = mv_out)); discriminate H].
  match type of H with
  | context [validateMovement ?m] => destruct (validateMovement m) eqn:Hm; [exists m |]
  end; [| discriminate H].
  cbn in H. injection H as <- <-. cbn. repeat split; try reflexivity. exact Hm.
Qed.

Lemma determineMovement_cases ty c prev :
  c ≠ 0 ->
  determineMovement ty c prev = Ok (mv_in, prev + Z.abs c)
  \/ determineMovement ty c prev = Ok (mv_out, prev - Z.abs c)
  \/ determineMovement ty c prev
     = Throw (badRequest (InsufficientStockAvailable prev (Z.abs c))).
Proof.
  intros Hc. unfold determineMovement.
  destruct (String.eqb ty "in" || (0 <? c)) eqn:Hin; [now left |].
  apply orb_false_elim in Hin as [_ Hpos]. apply Z.ltb_ge in Hpos.
  assert (Hneg : (c <? 0) = true) by (apply Z.ltb_lt; lia).
  rewrite Hneg, orb_true_r. cbn zeta.
  destruct (prev <? Z.abs c); [right; now right | right; now left].
Qed.

(** C10. A request that passes input validation (a type is supplied, the
    change is a non-zero number) is always handled as an 'in' or an 'out'
    movement: the branch that would assign the change as the new quantity
    and record an 'adjustment' movement is never taken, and the movement a
    successful call records is of type 'in' or 'out'. *)
Theorem adjustment_branch_unreachable :
  forall (ty : string) (c : Z),
    ty ≠ "" -> c ≠ 0 ->
    (forall prev mt nq,
       determineMovement ty c prev = Ok (mt, nq) ->
       (mt = mv_in /\ nq = prev + Z.abs c) \/ (mt = mv_out /\ nq = prev - Z.abs c))
    /\ (forall id why ref st st' resp,
          adjustStock id (mkStockBody c ty why ref) st = (st', Ok resp) ->
          exists m, movements st' = movements st ++ [m]
                    /\ (InventoryMovement.type m = mv_in
                        \/ InventoryMovement.type m = mv_out)).
Proof.
  intros ty c _ Hc.
  assert (Hbranch : forall prev mt nq,
             determineMovement ty c prev = Ok (mt, nq) ->
             (mt = mv_in /\ nq = prev + Z.abs c)
             \/ (mt = mv_out /\ nq = prev - Z.abs c)).
  { intros prev mt nq H.
    destruct (determineMovement_cases ty c prev Hc) as [E | [E | E]];
      rewrite E in H; [left | right | discriminate H];
      injection H as <- <-; split; reflexivity. }
  split; [exact Hbranch |].
  intros id why ref st st' resp H.
  apply adjustStock_Ok in H as (p & mt & nq & _ & _ & Hd & m & _ & Hty & _ & _ & _ & _ & -> & _).
  exists m. split; [reflexivity |].
  rewrite Hty. cbn in Hd.
  destruct (Hbranch _ _ _ Hd) as [[-> _] | [-> _]]; [left | right]; reflexivity.
Qed.

Lemma adjustment_branch_unreachable_witness :
  exists m,
    movements (fst (adjustStock 1 (mkStockBody (-3) "adjustment" None None)
                      (shop 3 2 in_stock 3)))
    = movements (shop 3 2 in_stock 3) ++ [m]
    /\ (InventoryMovement.type m = mv_in \/ InventoryMovement.type m = mv_out).
Proof.
  destruct (adjustment_branch_unreachable "adjustment" (-3)) as [_ H];
    [discriminate | lia |].
  refine (H 1%N None None (shop 3 2 in_stock 3) _ _ _).
  vm_compute. reflexivity.
Defined.



(** Every outcome of a call: either nothing was written and an error is
    returned, or the conditional update was applied and the movement insert
    decided between success and a validation error. *)
Lemma adjustStock_run id body st :
  (exists e, adjustStock id body st = (st, Throw e))
  \/ exists p mt nq,
       change body ≠ 0
       /\ products st !! id = Some p
       /\ determineMovement (type body) (change body) (Product.quantity p)
          = Ok (mt, nq)
       /\ let p' := incQuantitySetStatus (change body)
                      (calculateStockStatus nq (Product.low_stock_quantity p)) p in
          let m := InventoryMovement.mk id mt (Z.abs (change body))
                     (Product.quantity p) (Product.quantity p')
                     (reasonOrDefault (reason body) mt) (reference body) None in
          adjustStock id body st
          = if validateMovement m then
              (mkState (<[id := p']> (products st)) (movements st ++ [m])
                 (orders st) (transactions st) (notifications st) (next_id st),
               Ok (mkStockResponse p' mt (Product.quantity p)
                     (Product.quantity p') (change body)))
            else
              (setProducts (<[id := p']> (products st)) st,
               Throw (ValidationError "InventoryMovement")).
Proof.
  unfold adjustStock.
  destruct ((change body =? 0) || String.eqb (type body) "") eqn:Hv;
    [left; eexists; reflexivity |].
  apply orb_false_elim in Hv as [Hc _]. rewrite Hc.
  apply Z.eqb_neq in Hc.
  run_handler.
  destruct (products st !! id) as [p |] eqn:Hp; [| left; eexists; reflexivity].
  destruct (determineMovement (type body) (change body) (Product.quantity p))
    as [[mt nq] | e] eqn:Hd; [| left; eexists; reflexivity].
  rewrite Hp.
  match goal with
  | |- context [if ?c then (setProducts _ _, _) else _] => destruct c eqn:Hcond
  end.
  - right. exists p, mt, nq. split; [exact Hc |]. split; [reflexivity |].
    split; [exact Hd |]. cbn zeta.
    match goal with
    | |- context [validateMovement ?m] => destruct (validateMovement m)
    end; reflexivity.
  - left. destruct (decide (mt = mv_out)); eexists; reflexivity.
Qed.

(** A request whose type and sign agree (anything but type 'in' with a
    negative change) keeps the quantity non-negative and, when it succeeds,
    leaves the stock status equal to f of the new quantity. *)
Lemma adjustStock_consistent id body st p :
  products st !! id = Some p ->
  0 <= Product.quantity p ->
  ~ (type body = "in" /\ change body < 0) ->
  exists p',
    products (fst (adjustStock id body st)) !! id = Some p'
    /\ 0 <= Product.quantity p'
    /\ Product.low_stock_quantity p' = Product.low_stock_quantity p
    /\ (forall resp, snd (adjustStock id body st) = Ok resp ->
          Product.stock_status p'
          = calculateStockStatus (Product.quantity p')
              (Product.low_stock_quantity p')).
Proof.
  intros Hp Hq Hok.
  destruct (adjustStock_run id body st) as [[e E] | (p0 & mt & nq & Hc & Hp0 & Hd & E)].
  - rewrite E. cbn. exists p. repeat split; try assumption. discriminate.
  - rewrite Hp in Hp0. injection Hp0 as <-. cbn zeta in E.
    assert (Hnq : nq = Product.quantity p + change body /\ 0 <= nq).
    { unfold determineMovement in Hd.
      destruct (String.eqb_spec (type body) "in") as [Hin | Hin]; cbn in Hd.
      - assert (0 <= change body).
        { destruct (Z.lt_ge_cases (change body) 0) as [Hlt | Hge]; [| lia].
          exfalso. apply Hok. split; assumption. }
        injection Hd as <- <-. lia.
      - destruct (Z.ltb_spec 0 (change body)); cbn in Hd.
        + injection Hd as <- <-. lia.
        + assert (Hneg : (change body <? 0) = true) by (apply Z.ltb_lt; lia).
          rewrite Hneg, orb_true_r in Hd.
          destruct (Z.ltb_spec (Product.quantity p) (Z.abs (change body)));
            [discriminate Hd |].
          injection Hd as <- <-. lia. }
    destruct Hnq as [-> Hnn].
    rewrite E.
    match goal with
    | |- context [validateMovement ?m] => destruct (validateMovement m)
    end; cbn; rewrite lookup_insert_eq; eexists; (split; [reflexivity |]);
      cbn; repeat split; try lia; try reflexivity; discriminate.
Qed.

(** Over a whole run of such requests the quantity never goes negative. *)
Lemma adjustAll_consistent id bodies :
  forall st p,
    products st !! id = Some p ->
    0 <= Product.quantity p ->
    Forall (fun body => ~ (type body = "in" /\ change body < 0)) bodies ->
    exists p', products (adjustAll id bodies st) !! id = Some p'
               /\ 0 <= Product.quantity p'.
Proof.
  induction bodies as [| body bodies IH]; intros st p Hp Hq Hall.
  - exists p. split; assumption.
  - inversion Hall as [| ? ? Hb Hrest]; subst.
    destruct (adjustStock_consistent id body st p Hp Hq Hb) as (p1 & Hp1 & Hq1 & _).
    cbn. exact (IH _ p1 Hp1 Hq1 Hrest).
Qed.

(** A decrease that is not typed 'in' and asks for more than is stored is
    turned down with the insufficient-stock error and writes nothing. *)
Lemma adjustStock_insufficient_out id body st p :
  products st !! id = Some p ->
  type body ≠ "" -> type body ≠ "in" ->
  change body < 0 ->
  Product.quantity p < Z.abs (change body) ->
  adjustStock id body st
  = (st, Throw (badRequest (InsufficientStockAvailable (Product.quantity p)
                              (Z.abs (change body))))).
Proof.
  intros Hp Hty Hin Hneg Hlt. unfold adjustStock.
  destruct (Z.eqb_spec (change body) 0); [lia |].
  destruct (String.eqb_spec (type body) ""); [contradiction |]. cbn.
  run_handler. rewrite Hp. unfold determineMovement.
  destruct (String.eqb_spec (type body) "in"); [contradiction |].
  destruct (Z.ltb_spec 0 (change body)); [lia |]. cbn.
  destruct (Z.ltb_spec (change body) 0); [| lia]. rewrite orb_true_r.
  destruct (Z.ltb_spec (Product.quantity p) (Z.abs (change body))); [| lia].
  reflexivity.
Qed.

(** C1 (the code departs from the claim). The request
    {change: -5, type: 'in'} passes the route's schema; on a product with
    quantity 3 it leaves the stored quantity at -2. The request
    {change: -2, type: 'in'} succeeds on the same product (threshold 2) and
    leaves quantity 1 with status in_stock, while f(1, 2) is low_stock. *)
Theorem adjustStock_in_with_negative_change :
  adjustStockSchema (mkStockBody (-5) "in" None None) = true
  /\ Product.quantity
       <$> products (adjustAll 1 [mkStockBody (-5) "in" None None]
                       (shop 3 2 in_stock 3)) !! 1%N
     = Some (-2)
  /\ (exists resp,
        snd (adjustStock 1 (mkStockBody (-2) "in" None None) (shop 3 2 in_stock 3))
        = Ok resp)
  /\ ledger
       <$> products (fst (adjustStock 1 (mkStockBody (-2) "in" None None)
                            (shop 3 2 in_stock 3))) !! 1%N
     = Some (1, 2, in_stock)
  /\ calculateStockStatus 1 2 = low_stock.
Proof.
  split; [reflexivity |]. split; [vm_compute; reflexivity |].
  split; [eexists; vm_compute; reflexivity |].
  split; vm_compute; reflexivity.
Qed.

(** C2 (the code departs from the claim). A decrease sent with type 'in'
    ({change: -5, type: 'in'}) on a product that stores 3 is not turned
    down for insufficient stock: the update is applied without condition,
    the quantity becomes -2, and the call then fails on the movement
    record's validation, leaving the product changed and no movement. *)
Theorem adjustStock_in_decrease_not_guarded :
  adjustStock 1 (mkStockBody (-5) "in" None None) (shop 3 2 in_stock 3)
  = (setProducts {[ 1%N := widget (-2) 2 in_stock 3 ]} (shop 3 2 in_stock 3),
     Throw (ValidationError "InventoryMovement"))
  /\ adjustStock 1 (mkStockBody (-5) "out" None None) (shop 3 2 in_stock 3)
     = (shop 3 2 in_stock 3,
        Throw (badRequest (InsufficientStockAvailable 3 5))).
Proof. split; vm_compute; reflexivity. Qed.

(** ** Mongoose primitives: what each write does to the collections *)

Lemma findByIdAndUpdate_alter id upd st :
  Product_findByIdAndUpdate id upd st
  = (setProducts (alter upd id (products st)) st, Ok (upd <$> products st !! id)).
Proof.
  unfold Product_findByIdAndUpdate, Product_findOneAndUpdate.
  destruct (products st !! id) as [p |] eqn:Hp; cbn.
  - f_equal. f_equal. apply map_eq. intros j.
    rewrite lookup_insert, lookup_alter.
    destruct (decide (id = j)) as [<- |]; [rewrite Hp |]; reflexivity.
  - f_equal. destruct st as [ps ms os ts ns n]. unfold setProducts. cbn in *.
    f_equal. apply map_eq. intros j. rewrite lookup_alter.
    destruct (decide (id = j)) as [<- |]; [rewrite Hp |]; reflexivity.
Qed.

Lemma forEach_incAll {A} (pid : A -> N) (upd : A -> Product.t -> Product.t)
    (items : list A) :
  forall st,
    forEach (fun item => Product_findByIdAndUpdate (pid item) (upd item) ;;; ret tt)
      items st
    = (setProducts (incAll pid upd items (products st)) st, Ok tt).
Proof.
  induction items as [| item items IH]; intros st.
  - cbn. unfold ret. destruct st; reflexivity.
  - cbn [forEach]. unfold bind at 1. unfold bind at 1.
    rewrite findByIdAndUpdate_alter. unfold ret at 1.
    rewrite IH. destruct st; reflexivity.
Qed.

Lemma incStockQuantity_add a b p :
  incStockQuantity a (incStockQuantity b p) = incStockQuantity (b + a) p.
Proof. destruct p. unfold incStockQuantity. cbn. f_equal. lia. Qed.

Lemma incStockQuantity_0 p : incStockQuantity 0 p = p.
Proof. destruct p. unfold incStockQuantity. cbn. f_equal. lia. Qed.

Lemma incSoldQuantity_add a b p :
  incSoldQuantity a (incSoldQuantity b p) = incSoldQuantity (b + a) p.
Proof. destruct p. unfold incSoldQuantity. cbn. f_equal. lia. Qed.

Lemma incSoldQuantity_0 p : incSoldQuantity 0 p = p.
Proof. destruct p. unfold incSoldQuantity. cbn. f_equal. lia. Qed.

(** A loop of increments adds, to each product, the sum of the increments
    of the items that refer to it. *)
Section IncAll.
Context {A : Type} (pid : A -> N) (d : A -> Z).
Context (inc : Z -> Product.t -> Product.t).
Hypothesis inc_add : forall a b p, inc a (inc b p) = inc (b + a) p.
Hypothesis inc_0 : forall p, inc 0 p = p.

Lemma lookup_incAll (items : list A) :
  forall (ps : gmap N Product.t) id,
    incAll pid (fun item => inc (d item)) items ps !! id
    = inc (total pid d id items) <$> ps !! id.
Proof.
  unfold incAll.
  induction items as [| item items IH]; intros ps id.
  - cbn. destruct (ps !! id) as [p |]; cbn; [rewrite inc_0 |]; reflexivity.
  - cbn [foldl total]. rewrite IH, lookup_alter.
    destruct (N.eqb_spec (pid item) id) as [-> | Hne].
    + rewrite decide_True by reflexivity.
      destruct (ps !! id) as [p |]; cbn; [rewrite inc_add |]; reflexivity.
    + rewrite decide_False by exact Hne. reflexivity.
Qed.
End IncAll.

Lemma total_opp {A} (pid : A -> N) (d : A -> Z) id items :
  total pid (fun item => - d item) id items = - total pid d id items.
Proof.
  induction items as [| item items IH]; [reflexivity |].
  cbn [total]. rewrite IH. destruct (N.eqb (pid item) id); lia.
Qed.

Lemma find_saved (os : list Order.t) id o o' :
  find (fun x => N.eqb (Order._id x) id) os = Some o ->
  Order._id o' = id ->
  find (fun x => N.eqb (Order._id x) id)
    (map (fun x => if N.eqb (Order._id x) (Order._id o') then o' else x) os)
  = Some o'.
Proof.
  intros Hfind Hid. subst id.
  induction os as [| x os IH]; [discriminate Hfind |].
  cbn in *. destruct (N.eqb_spec (Order._id x) (Order._id o')) as [E | E].
  - rewrite N.eqb_refl. reflexivity.
  - destruct (N.eqb_spec (Order._id x) (Order._id o')); [contradiction |].
    apply IH. exact Hfind.
Qed.

Lemma find_id (os : list Order.t) id o :
  find (fun x => N.eqb (Order._id x) id) os = Some o -> Order._id o = id.
Proof.
  intros H. apply find_some in H as [_ H]. apply N.eqb_eq. exact H.
Qed.

(** ** createOrder *)

Lemma verifyItems_run items :
  forall subtotal orderItems st,
    (existsb (itemRejected st) items = true
     /\ exists e, verifyItems items subtotal orderItems st = (st, Throw e))
    \/ (existsb (itemRejected st) items = false
        /\ verifyItems items subtotal orderItems st
           = (st, Ok (subtotal + sumSubtotals (map (snapshot st) items),
                      orderItems ++ map (snapshot st) items))).
Proof.
  induction items as [| item items IH]; intros subtotal orderItems st.
  - right. split; [reflexivity |]. cbn. unfold ret.
    rewrite Z.add_0_r, app_nil_r. reflexivity.
  - cbn [verifyItems existsb map sumSubtotals foldr]. run_handler.
    unfold itemRejected at 1 3, snapshot at 1 2 3.
    destruct (products st !! item_productId item) as [product |];
      [| left; split; [reflexivity | eexists; reflexivity]].
    destruct (negb (String.eqb (Product.status product) "active"));
      [left; split; [reflexivity | eexists; reflexivity] |].
    destruct (Product.stockQuantity product <? item_quantity item);
      [left; split; [reflexivity | eexists; reflexivity] |].
    cbn [orb OrderItem.subtotal].
    destruct (IH (subtotal + Product.price product * item_quantity item)
                (orderItems ++
                   [OrderItem.mk (item_productId item) (Product.name product)
                      (Product.price product) (item_quantity item)
                      (Product.price product * item_quantity item)]) st)
      as [[Hr [e He]] | [Hr He]].
    + left. split; [exact Hr |]. exists e. exact He.
    + right. split; [exact Hr |]. rewrite He.
      fold (sumSubtotals (map (snapshot st) items)).
      rewrite <- app_assoc, Z.add_assoc. reflexivity.
Qed.

(** The two outcomes of createOrder. *)
Lemma createOrder_run body env st :
  if orderAccepted body env st
  then createOrder body env st = (placed body env st, Ok (newOrder body env st))
  else exists e, createOrder body env st = (st, Throw e).
Proof.
  unfold orderAccepted, createOrder.
  destruct (body_items body) as [| item items] eqn:Hitems.
  - cbn. eexists. reflexivity.
  - rewrite bool_decide_eq_false_2 by discriminate. cbn [negb andb].
    destruct (verifyItems_run (item :: items) 0 [] st) as [[Hr [e He]] | [Hr He]];
      rewrite Hr; cbn [negb andb].
    + exists e. unfold bind at 1. rewrite He. reflexivity.
    + assert (Hdoc :
        Order.mk (next_id st) (newOrderNumber env)
          (match body_customerId body with
           | Some c => Some c
           | None => Some (userId env)
           end)
          (map (snapshot st) (item :: items))
          (sumSubtotals (map (snapshot st) (item :: items))) 0 0 0
          (sumSubtotals (map (snapshot st) (item :: items)) + 0 + 0 - 0)
          pending (body_paymentMethod body) unpaid (body_notes body)
          None None None
        = newOrder body env st).
      { unfold newOrder. rewrite Hitems. reflexivity. }
      destruct (validateOrder (newOrder body env st)) eqn:Hvalid; cbn [negb andb].
      * destruct (existsb _ (orders st)) eqn:Hdup; cbn [negb].
        -- eexists. unfold bind at 1. rewrite He. cbn [app]. rewrite Z.add_0_l.
           unfold bind at 1, Order_create. rewrite Hdoc, Hvalid, Hdup. reflexivity.
        -- unfold bind at 1. rewrite He. cbn [app]. rewrite Z.add_0_l.
           unfold bind at 1, Order_create. rewrite Hdoc, Hvalid, Hdup.
           unfold bind at 1. rewrite forEach_incAll.
           unfold bind at 1, Notification_create, ret, placed.
           rewrite Hitems. cbn. reflexivity.
      * eexists. unfold bind at 1. rewrite He. cbn [app]. rewrite Z.add_0_l.
        unfold bind at 1, Order_create. rewrite Hdoc, Hvalid. reflexivity.
Qed.



(** ** updateOrderStatus *)

Lemma validateOrder_processed status notes env order :
  validateOrder (processed status notes env order) = validateOrder order.
Proof. unfold processed. destruct (truthy notes); reflexivity. Qed.

Lemma processed_id status notes env order :
  Order._id (processed status notes env order) = Order._id order.
Proof. unfold processed. destruct (truthy notes); reflexivity. Qed.

Lemma processed_items status notes env order :
  Order.items (processed status notes env order) = Order.items order.
Proof. unfold processed. destruct (truthy notes); reflexivity. Qed.

Lemma processed_status status notes env order :
  Order.status (processed status notes env order) = status.
Proof. unfold processed. destruct (truthy notes); reflexivity. Qed.

Lemma processed_customer status notes env order :
  Order.customerId (processed status notes env order) = Order.customerId order.
Proof. unfold processed. destruct (truthy notes); reflexivity. Qed.

Lemma processed_totalAmount status notes env order :
  Order.totalAmount (processed status notes env order) = Order.totalAmount order.
Proof. unfold processed. destruct (truthy notes); reflexivity. Qed.

(** The tail of the handler: save, notify, answer. *)
Lemma save_and_notify (o : Order.t) (status : OrderStatus) st :
  (Order_save o ;;;
   match Order.customerId o with
   | Some customer =>
       Notification_create
         (Notification.mk customer ("Order " +:+ statusName status)
            (if bool_decide (status = rejected) then ntf_reject else ntf_order)
            (Order._id o))
   | None => ret tt
   end ;;;
   ret o) st
  = if validateOrder o then
      (mkState (products st) (movements st) (saved o (orders st))
         (transactions st) (notified o status (notifications st)) (next_id st),
       Ok o)
    else (st, Throw (ValidationError "Order")).
Proof.
  unfold bind, Order_save, notified. destruct (validateOrder o); [| reflexivity].
  destruct (Order.customerId o); cbn; reflexivity.
Qed.

(** Into cancelled or rejected, from any status: the line items go back to
    stockQuantity, then the order is saved. *)
Lemma updateOrderStatus_return id status notes env st order :
  findOrder id st = Some order ->
  status = cancelled \/ status = rejected ->
  let order' :=
    if bool_decide (status = rejected)
    then setCancelReason notes (processed status notes env order)
    else processed status notes env order in
  let restocked :=
    incAll OrderItem.productId
      (fun item => incStockQuantity (OrderItem.quantity item))
      (Order.items order) (products st) in
  updateOrderStatus id status notes env st
  = if validateOrder order then
      (mkState restocked (movements st) (saved order' (orders st))
         (transactions st) (notified order' status (notifications st))
         (next_id st),
       Ok order')
    else (setProducts restocked st, Throw (ValidationError "Order")).
Proof.
  intros Hfind Hst order' restocked.
  unfold updateOrderStatus. unfold bind at 1. unfold Order_findById.
  unfold findOrder in Hfind. rewrite Hfind.
  fold (processed status notes env order).
  assert (Hnd : bool_decide (status = delivered) = false)
    by (destruct Hst as [-> | ->]; reflexivity).
  assert (Hcr : bool_decide (status = cancelled) || bool_decide (status = rejected) = true)
    by (destruct Hst as [-> | ->]; reflexivity).
  rewrite Hnd, Hcr. cbn [andb].
  unfold bind at 1. unfold ret at 1.
  unfold bind at 1. unfold bind at 1. unfold returnStock.
  rewrite forEach_incAll, processed_items. unfold ret at 1.
  fold order' restocked.
  rewrite (save_and_notify order' status).
  assert (Hv : validateOrder order' = validateOrder order).
  { subst order'. destruct (bool_decide (status = rejected));
      [change (validateOrder (setCancelReason notes (processed status notes env order)))
         with (validateOrder (processed status notes env order)) |];
      apply validateOrder_processed. }
  rewrite Hv. reflexivity.
Qed.

(** Into delivered from another status: paid, sold counters, one income
    transaction, then the order is saved. *)
Lemma updateOrderStatus_deliver id notes env st order :
  findOrder id st = Some order ->
  Order.status order ≠ delivered ->
  let order' := setPaymentStatus paid (processed delivered notes env order) in
  let sold :=
    incAll OrderItem.productId
      (fun item => incSoldQuantity (OrderItem.quantity item))
      (Order.items order) (products st) in
  updateOrderStatus id delivered notes env st
  = if validateTransaction (saleTransaction order' env) then
      if existsb
           (fun t => String.eqb (Transaction.reference t) (newTransactionRef env))
           (transactions st)
      then (setProducts sold st, Throw (DuplicateKey "reference"))
      else if validateOrder order then
        (mkState sold (movements st) (saved order' (orders st))
           (transactions st ++ [saleTransaction order' env])
           (notified order' delivered (notifications st)) (next_id st),
         Ok order')
      else
        (mkState sold (movements st) (orders st)
           (transactions st ++ [saleTransaction order' env])
           (notifications st) (next_id st),
         Throw (ValidationError "Order"))
    else (setProducts sold st, Throw (ValidationError "Transaction")).
Proof.
  intros Hfind Hold order' sold.
  unfold updateOrderStatus. unfold bind at 1. unfold Order_findById.
  unfold findOrder in Hfind. rewrite Hfind.
  fold (processed delivered notes env order).
  rewrite (bool_decide_eq_false_2 _ Hold).
  rewrite !bool_decide_eq_true_2 by reflexivity.
  rewrite !(bool_decide_eq_false_2 (delivered = _)) by discriminate.
  cbn [andb negb orb].
  fold order'.
  unfold bind at 1. unfold bind at 1. unfold bind at 1. unfold addSold.
  rewrite forEach_incAll.
  assert (Hitems : Order.items order' = Order.items order)
    by (subst order'; cbn; apply processed_items).
  rewrite Hitems. fold sold.
  unfold bind at 1. unfold Transaction_create.
  destruct (validateTransaction (saleTransaction order' env)); [| reflexivity].
  cbn [products movements orders transactions notifications next_id setProducts].
  change (Transaction.reference (saleTransaction order' env))
    with (newTransactionRef env).
  destruct (existsb _ (transactions st)); [reflexivity |].
  assert (Hv : validateOrder order' = validateOrder order).
  { subst order'.
    change (validateOrder (setPaymentStatus paid (processed delivered notes env order)))
      with (validateOrder (processed delivered notes env order)).
    apply validateOrder_processed. }
  etransitivity; [apply (save_and_notify order' delivered) |].
  rewrite Hv. reflexivity.
Qed.

(** Into delivered when the order is already delivered: the guard
    [oldStatus !== 'delivered'] skips the side effects; only the order's
    processing fields are written. *)
Lemma updateOrderStatus_redeliver id notes env st order :
  findOrder id st = Some order ->
  Order.status order = delivered ->
  let order' := processed delivered notes env order in
  updateOrderStatus id delivered notes env st
  = if validateOrder order then
      (mkState (products st) (movements st) (saved order' (orders st))
         (transactions st) (notified order' delivered (notifications st))
         (next_id st),
       Ok order')
    else (st, Throw (ValidationError "Order")).
Proof.
  intros Hfind Hold order'.
  unfold updateOrderStatus. unfold bind at 1. unfold Order_findById.
  unfold findOrder in Hfind. rewrite Hfind.
  fold (processed delivered notes env order). rewrite Hold.
  rewrite !bool_decide_eq_true_2 by reflexivity.
  rewrite !(bool_decide_eq_false_2 (delivered = _)) by discriminate.
  cbn [andb negb orb].
  fold order'.
  unfold bind at 1. unfold ret at 1. unfold bind at 1. unfold ret at 1.
  rewrite (save_and_notify order' delivered).
  subst order'. rewrite validateOrder_processed. reflexivity.
Qed.

Lemma findOrder_saved id st order o' ps ms ts ns n :
  findOrder id st = Some order ->
  Order._id o' = Order._id order ->
  findOrder id (mkState ps ms (saved o' (orders st)) ts ns n) = Some o'.
Proof.
  intros Hfind Hid. unfold findOrder, saved in *. cbn.
  apply (find_saved _ _ order); [exact Hfind |].
  rewrite Hid. apply (find_id _ _ _ Hfind).
Qed.

Lemma lookup_restocked items (ps : gmap N Product.t) pid :
  incAll OrderItem.productId
    (fun item => incStockQuantity (OrderItem.quantity item)) items ps !! pid
  = incStockQuantity (ordered pid items) <$> ps !! pid.
Proof.
  apply (lookup_incAll OrderItem.productId OrderItem.quantity incStockQuantity).
  - apply incStockQuantity_add.
  - apply incStockQuantity_0.
Qed.

Lemma lookup_sold items (ps : gmap N Product.t) pid :
  incAll OrderItem.productId
    (fun item => incSoldQuantity (OrderItem.quantity item)) items ps !! pid
  = incSoldQuantity (ordered pid items) <$> ps !! pid.
Proof.
  apply (lookup_incAll OrderItem.productId OrderItem.quantity incSoldQuantity).
  - apply incSoldQuantity_add.
  - apply incSoldQuantity_0.
Qed.

(** C6. Every status transition into delivered from a non-delivered
    status leaves the order delivered and paid, and creates exactly one
    transaction: type income, category sale, amount equal to the order's
    totalAmount, linked to the order. The transition goes through whenever
    the stored order is valid and the generated reference is new. *)
Theorem deliver_pays_and_posts_one_sale :
  forall id notes env st order,
    findOrder id st = Some order ->
    Order.status order ≠ delivered ->
    (forall st' order',
       updateOrderStatus id delivered notes env st = (st', Ok order') ->
       findOrder id st' = Some order'
       /\ Order.status order' = delivered
       /\ Order.paymentStatus order' = paid
       /\ Order.totalAmount order' = Order.totalAmount order
       /\ exists txn,
            transactions st' = transactions st ++ [txn]
            /\ Transaction.type txn = income
            /\ Transaction.category txn = sale
            /\ Transaction.amount txn = Order.totalAmount order
            /\ Transaction.relatedOrder txn = Some id)
    /\ (validateOrder order = true ->
        newTransactionRef env ≠ "" ->
        existsb (fun t => String.eqb (Transaction.reference t) (newTransactionRef env))
          (transactions st) = false ->
        exists st' order',
          updateOrderStatus id delivered notes env st = (st', Ok order')).
Proof.
  intros id notes env st order Hfind Hold.
  pose proof (updateOrderStatus_deliver id notes env st order Hfind Hold) as Hrun.
  cbn zeta in Hrun. split.
  - intros st' order' H. rewrite Hrun in H.
    destruct (validateTransaction _); [| discriminate H].
    destruct (existsb _ (transactions st)); [discriminate H |].
    destruct (validateOrder order); [| discriminate H].
    injection H as <- <-.
    split; [apply (findOrder_saved _ _ order); [exact Hfind | apply processed_id] |].
    split; [apply processed_status |]. split; [reflexivity |].
    split; [apply processed_totalAmount |].
    eexists. split; [reflexivity |]. cbn.
    split; [reflexivity |]. split; [reflexivity |].
    split; [apply processed_totalAmount |].
    rewrite processed_id. f_equal. apply (find_id _ _ _ Hfind).
  - intros Hv Href Hfresh. rewrite Hrun, Hfresh, Hv.
    assert (Hvt : validateTransaction
                    (saleTransaction
                       (setPaymentStatus paid (processed delivered notes env order))
                       env) = true).
    { unfold validateTransaction, saleTransaction. cbn.
      destruct (String.eqb_spec (newTransactionRef env) ""); [contradiction |].
      cbn. rewrite processed_totalAmount.
      unfold validateOrder in Hv.
      repeat (apply andb_prop in Hv as [Hv ?]). assumption. }
    rewrite Hvt. eexists _, _. reflexivity.
Qed.

Lemma deliver_pays_and_posts_one_sale_witness :
  exists st' order' txn,
    updateOrderStatus 100 delivered None clerk
      (shopWithOrder 3 0 (oneWidgetOrder 2 pending unpaid) [])
    = (st', Ok order')
    /\ Order.paymentStatus order' = paid
    /\ transactions st' = [txn]
    /\ Transaction.type txn = income
    /\ Transaction.category txn = sale
    /\ Transaction.amount txn = 20.
Proof.
  destruct (deliver_pays_and_posts_one_sale 100 None clerk
              (shopWithOrder 3 0 (oneWidgetOrder 2 pending unpaid) [])
              (oneWidgetOrder 2 pending unpaid))
    as [Heffects Hruns]; [reflexivity | discriminate |].
  destruct Hruns as (st' & order' & Hrun); [reflexivity | discriminate | reflexivity |].
  destruct (Heffects st' order' Hrun)
    as (_ & _ & Hpaid & _ & txn & Htxns & Hty & Hcat & Hamount & _).
  exists st', order', txn. repeat split; assumption.
Defined.







(** ** Who writes the inventory ledger *)

Lemma sameLedger_refl st : sameLedger st st.
Proof. split; [reflexivity | intros id; reflexivity]. Qed.

Lemma sameLedger_trans st1 st2 st3 :
  sameLedger st1 st2 -> sameLedger st2 st3 -> sameLedger st1 st3.
Proof.
  intros [Hm1 Hp1] [Hm2 Hp2]. split.
  - rewrite Hm2. exact Hm1.
  - intros id. rewrite Hp2. apply Hp1.
Qed.

Lemma sameLedger_eq st st' :
  products st' = products st -> movements st' = movements st -> sameLedger st st'.
Proof. intros Hp Hm. split; [exact Hm | intros id; rewrite Hp; reflexivity]. Qed.

Ltac same_collections := intros st; apply sameLedger_eq; reflexivity.

Lemma keepsLedger_ret {A} (a : A) : keepsLedger (ret a).
Proof. same_collections. Qed.

Lemma keepsLedger_throw {A} e : keepsLedger (@throw A e).
Proof. same_collections. Qed.

Lemma keepsLedger_bind {A B} (c : Handler A) (k : A -> Handler B) :
  keepsLedger c -> (forall a, keepsLedger (k a)) -> keepsLedger (bind c k).
Proof.
  intros Hc Hk st. unfold bind. specialize (Hc st).
  destruct (c st) as [st1 [a | e]]; cbn in *.
  - eapply sameLedger_trans; [exact Hc | apply Hk].
  - exact Hc.
Qed.

Lemma keepsLedger_forEach {A} (f : A -> Handler unit) (l : list A) :
  (forall x, keepsLedger (f x)) -> keepsLedger (forEach f l).
Proof.
  intros Hf. induction l as [| x l IH]; cbn.
  - apply keepsLedger_ret.
  - apply keepsLedger_bind; [apply Hf | intros _; exact IH].
Qed.

Lemma keepsLedger_findByIdAndUpdate id upd :
  (forall p, ledger (upd p) = ledger p) ->
  keepsLedger (Product_findByIdAndUpdate id upd).
Proof.
  intros Hupd st. rewrite findByIdAndUpdate_alter.
  unfold sameLedger, setProducts. cbn [fst products movements].
  split; [reflexivity |]. intros j. rewrite lookup_alter.
  destruct (decide (id = j)) as [<- |]; [| reflexivity].
  destruct (products st !! id) as [p |]; [| reflexivity].
  change (Some (ledger (upd p)) = Some (ledger p)). rewrite Hupd. reflexivity.
Qed.

Lemma keepsLedger_reads {A} (f : State -> Result A) :
  keepsLedger (fun st => (st, f st)).
Proof. same_collections. Qed.

Lemma keepsLedger_Order_create doc : keepsLedger (Order_create doc).
Proof.
  intros st. unfold Order_create.
  destruct (validateOrder _); [destruct (existsb _ _) |];
    apply sameLedger_eq; reflexivity.
Qed.

Lemma keepsLedger_Order_save o : keepsLedger (Order_save o).
Proof.
  intros st. unfold Order_save.
  destruct (validateOrder o); apply sameLedger_eq; reflexivity.
Qed.

Lemma keepsLedger_Order_deleteOne o : keepsLedger (Order_deleteOne o).
Proof. same_collections. Qed.

Lemma keepsLedger_Transaction_create t : keepsLedger (Transaction_create t).
Proof.
  intros st. unfold Transaction_create.
  destruct (validateTransaction t); [destruct (existsb _ _) |];
    apply sameLedger_eq; reflexivity.
Qed.

Lemma keepsLedger_Notification_create n : keepsLedger (Notification_create n).
Proof. same_collections. Qed.

Create HintDb ledger.
#[local] Hint Resolve keepsLedger_ret keepsLedger_throw keepsLedger_Order_create
  keepsLedger_Order_save keepsLedger_Order_deleteOne
  keepsLedger_Transaction_create keepsLedger_Notification_create : ledger.

Lemma keepsLedger_stock_loop {A} (pid : A -> N) (d : A -> Z) items :
  keepsLedger
    (forEach (fun item =>
                Product_findByIdAndUpdate (pid item) (incStockQuantity (d item))
                ;;; ret tt) items).
Proof.
  apply keepsLedger_forEach. intros x.
  apply keepsLedger_bind; [| auto with ledger].
  apply keepsLedger_findByIdAndUpdate. intros p. reflexivity.
Qed.

Lemma keepsLedger_sold_loop items : keepsLedger (addSold items).
Proof.
  apply keepsLedger_forEach. intros x.
  apply keepsLedger_bind; [| auto with ledger].
  apply keepsLedger_findByIdAndUpdate. intros p. reflexivity.
Qed.

Lemma keepsLedger_verifyItems items :
  forall subtotal orderItems, keepsLedger (verifyItems items subtotal orderItems).
Proof.
  induction items as [| item items IH]; intros subtotal orderItems; cbn.
  - apply keepsLedger_ret.
  - apply keepsLedger_bind; [apply (keepsLedger_reads (fun st => Ok _)) |].
    intros [product |]; [| auto with ledger].
    destruct (negb _); [auto with ledger |].
    destruct (_ <? _); [auto with ledger | apply IH].
Qed.

Lemma keepsLedger_createOrder body env : keepsLedger (createOrder body env).
Proof.
  unfold createOrder. destruct (body_items body) as [| item items];
    [auto with ledger |].
  apply keepsLedger_bind; [apply keepsLedger_verifyItems |].
  intros [subtotal orderItems].
  apply keepsLedger_bind; [auto with ledger |]. intros order.
  apply keepsLedger_bind;
    [apply (keepsLedger_stock_loop item_productId (fun i => - item_quantity i)) |].
  intros _. apply keepsLedger_bind; auto with ledger.
Qed.

Lemma keepsLedger_updateOrderStatus id status notes env :
  keepsLedger (updateOrderStatus id status notes env).
Proof.
  unfold updateOrderStatus.
  apply keepsLedger_bind; [apply (keepsLedger_reads (fun st => Ok _)) |].
  intros [order0 |]; [| auto with ledger].
  apply keepsLedger_bind.
  { destruct (_ && _); [| auto with ledger].
    apply keepsLedger_bind; [apply keepsLedger_sold_loop |]. intros _.
    apply keepsLedger_bind; auto with ledger. }
  intros order3. apply keepsLedger_bind.
  { destruct (_ || _); [| auto with ledger].
    apply keepsLedger_bind; [| auto with ledger].
    apply (keepsLedger_stock_loop OrderItem.productId OrderItem.quantity). }
  intros order4. apply keepsLedger_bind; [auto with ledger |]. intros _.
  apply keepsLedger_bind; [| auto with ledger].
  destruct (Order.customerId order4); auto with ledger.
Qed.

Lemma keepsLedger_deleteOrder id : keepsLedger (deleteOrder id).
Proof.
  unfold deleteOrder.
  apply keepsLedger_bind; [apply (keepsLedger_reads (fun st => Ok _)) |].
  intros [order |]; [| auto with ledger].
  destruct (negb _); [auto with ledger |].
  apply keepsLedger_bind; [| auto with ledger].
  apply (keepsLedger_stock_loop OrderItem.productId OrderItem.quantity).
Qed.

(** updateProduct writes the supplied quantity straight into the document
    and derives the stock status from it. *)
Lemma updateProduct_sets_quantity id data st p q :
  products st !! id = Some p ->
  upd_quantity data = Some q ->
  0 <= q ->
  0 <= default (Product.low_stock_quantity p) (upd_low_stock_quantity data) ->
  exists p',
    updateProduct id data st = (setProducts (<[id := p']> (products st)) st, Ok p')
    /\ Product.quantity p' = q
    /\ Product.low_stock_quantity p'
       = default (Product.low_stock_quantity p) (upd_low_stock_quantity data)
    /\ Product.stock_status p'
       = calculateStockStatus q (Product.low_stock_quantity p').
Proof.
  intros Hp Hq Hq0 Hl0. unfold updateProduct, bind, Product_findById.
  rewrite Hp, Hq. unfold Product_save, validateProduct. cbn.
  destruct (Z.leb_spec 0 q); [| lia].
  destruct (Z.leb_spec 0 (default (Product.low_stock_quantity p)
                            (upd_low_stock_quantity data))); [| lia].
  cbn. eexists. split; [reflexivity |].
  unfold preSave.
  destruct (negb _ || negb _); cbn; repeat split;
    destruct (upd_low_stock_quantity data); reflexivity.
Qed.

Lemma updateProduct_movements id data st :
  movements (fst (updateProduct id data st)) = movements st.
Proof.
  unfold updateProduct, bind, Product_findById, throw.
  destruct (products st !! id) as [p |]; [| reflexivity].
  unfold Product_save. destruct (validateProduct _); reflexivity.
Qed.



(** ** Further properties of the two controllers *)



(** X2. A decrease typed 'out' or 'adjustment' that asks for more than the
    stored quantity is refused with the insufficient-stock error and
    writes nothing: state unchanged, no movement recorded. *)
Theorem insufficient_decrease_refused :
  forall id body st p,
    products st !! id = Some p ->
    type body = "out" \/ type body = "adjustment" ->
    change body < 0 ->
    Product.quantity p < Z.abs (change body) ->
    adjustStock id body st
    = (st, Throw (badRequest (InsufficientStockAvailable (Product.quantity p)
                                (Z.abs (change body))))).
Proof.
  intros id body st p Hp Hty Hneg Hlt.
  apply adjustStock_insufficient_out; try assumption;
    destruct Hty as [-> | ->]; discriminate.
Qed.

Lemma insufficient_decrease_refused_witness :
  adjustStock 1 (mkStockBody (-3) "out" None None) (shop 2 2 low_stock 2)
  = (shop 2 2 low_stock 2, Throw (badRequest (InsufficientStockAvailable 2 3))).
Proof.
  apply (insufficient_decrease_refused 1 (mkStockBody (-3) "out" None None)
           (shop 2 2 low_stock 2) (widget 2 2 low_stock 2));
    [reflexivity | left; reflexivity | cbn; lia | cbn; lia].
Defined.

Lemma find_fresh_app (os : list Order.t) o :
  Forall (fun o' => Order._id o' ≠ Order._id o) os ->
  find (fun x => N.eqb (Order._id x) (Order._id o)) (os ++ [o]) = Some o.
Proof.
  induction 1 as [| x os Hx _ IH]; cbn.
  - rewrite N.eqb_refl. reflexivity.
  - destruct (N.eqb_spec (Order._id x) (Order._id o)); [contradiction | exact IH].
Qed.

Lemma ordered_snapshot st id items :
  ordered id (map (snapshot st) items) = requested id items.
Proof.
  unfold ordered, requested.
  induction items as [| item items IH]; [reflexivity |].
  cbn [map total]. rewrite IH. unfold snapshot.
  destruct (products st !! item_productId item); reflexivity.
Qed.



(** ** deleteOrder *)

Lemma find_filter_out (os : list Order.t) id :
  find (fun x => N.eqb (Order._id x) id)
    (filter (fun o' => Order._id o' ≠ id) os) = None.
Proof.
  induction os as [| x os IH]; [reflexivity |].
  rewrite filter_cons. destruct (decide (Order._id x ≠ id)) as [Hne | Heq].
  - cbn. destruct (N.eqb_spec (Order._id x) id); [contradiction | exact IH].
  - exact IH.
Qed.

Lemma find_filter_other (os : list Order.t) id id' :
  id' ≠ id ->
  find (fun x => N.eqb (Order._id x) id')
    (filter (fun o' => Order._id o' ≠ id) os)
  = find (fun x => N.eqb (Order._id x) id') os.
Proof.
  intros Hne. induction os as [| x os IH]; [reflexivity |].
  rewrite filter_cons. destruct (decide (Order._id x ≠ id)) as [Hx | Hx].
  - cbn. rewrite IH. reflexivity.
  - cbn. destruct (N.eqb_spec (Order._id x) id') as [E | E]; [| exact IH].
    exfalso. apply Hx. rewrite E. exact Hne.
Qed.

(** Every outcome of deleteOrder. *)
Lemma deleteOrder_run id st :
  deleteOrder id st
  = match findOrder id st with
    | None => (st, Throw (notFound OrderNotFound))
    | Some order =>
        if bool_decide (Order.status order = pending) then
          (mkState
             (incAll OrderItem.productId
                (fun item => incStockQuantity (OrderItem.quantity item))
                (Order.items order) (products st))
             (movements st)
             (filter (fun o' => Order._id o' ≠ Order._id order) (orders st))
             (transactions st) (notifications st) (next_id st),
           Ok tt)
        else (st, Throw (badRequest OnlyPendingDeletable))
    end.
Proof.
  unfold deleteOrder, findOrder. unfold bind at 1. unfold Order_findById.
  destruct (find _ (orders st)) as [order |]; [| reflexivity].
  destruct (bool_decide (Order.status order = pending)); [| reflexivity].
  cbn [negb]. unfold bind, returnStock. rewrite forEach_incAll.
  reflexivity.
Qed.


Lemma filter_fresh_app (os : list Order.t) o :
  Forall (fun o' => Order._id o' ≠ Order._id o) os ->
  filter (fun o' => Order._id o' ≠ Order._id o) (os ++ [o]) = os.
Proof.
  intros H. rewrite filter_app. rewrite filter_cons, filter_nil.
  rewrite decide_False by (intros Hne; apply Hne; reflexivity).
  rewrite app_nil_r. induction H as [| x os Hx _ IH]; [reflexivity |].
  rewrite filter_cons, decide_True by exact Hx. rewrite IH. reflexivity.
Qed.



(** ** createOrder: what a placed order holds *)

Lemma createOrder_Ok body env st st' order :
  createOrder body env st = (st', Ok order) ->
  orderAccepted body env st = true
  /\ st' = placed body env st
  /\ order = newOrder body env st.
Proof.
  intros H. pose proof (createOrder_run body env st) as Hrun.
  destruct (orderAccepted body env st).
  - rewrite Hrun in H. injection H as <- <-. repeat split.
  - destruct Hrun as [e He]. rewrite He in H. discriminate H.
Qed.

Lemma accepted_items body env st :
  orderAccepted body env st = true ->
  existsb (itemRejected st) (body_items body) = false
  /\ validateOrder (newOrder body env st) = true.
Proof.
  unfold orderAccepted. intros H.
  apply andb_prop in H as [H _]. apply andb_prop in H as [H Hv].
  apply andb_prop in H as [_ Hr]. apply negb_true_iff in Hr.
  split; assumption.
Qed.





Lemma requested_not_in id items :
  ~ In id (map item_productId items) -> requested id items = 0.
Proof.
  unfold requested. induction items as [| item items IH]; [reflexivity |].
  cbn [map In total]. intros Hnot.
  destruct (N.eqb_spec (item_productId item) id) as [E | E].
  - exfalso. apply Hnot. left. exact E.
  - apply IH. intros Hin. apply Hnot. right. exact Hin.
Qed.

Lemma requested_within_stock st items id p :
  NoDup (map item_productId items) ->
  existsb (itemRejected st) items = false ->
  products st !! id = Some p ->
  0 <= Product.stockQuantity p ->
  requested id items <= Product.stockQuantity p.
Proof.
  intros Hnd Hrej Hp Hstock.
  induction items as [| item items IH].
  - cbn. exact Hstock.
  - cbn [map] in Hnd. apply NoDup_cons in Hnd as [Hnot Hnd].
    cbn [existsb] in Hrej. apply orb_false_elim in Hrej as [Hitem Hrest].
    unfold requested. cbn [total]. fold (requested id items).
    destruct (N.eqb_spec (item_productId item) id) as [E | E].
    + subst id. rewrite requested_not_in
        by (rewrite <- list_elem_of_In; exact Hnot).
      unfold itemRejected in Hitem. rewrite Hp in Hitem.
      apply orb_false_elim in Hitem as [_ Hlt]. apply Z.ltb_ge in Hlt. lia.
    + exact (IH Hnd Hrest).
Qed.



Lemma validateOrderItem_line pid name price q :
  name ≠ "" -> 0 <= price -> 1 <= q ->
  validateOrderItem (OrderItem.mk pid name price q (price * q)) = true.
Proof.
  intros Hname Hprice Hq. unfold validateOrderItem. cbn.
  destruct (String.eqb_spec name ""); [contradiction |].
  destruct (Z.leb_spec 0 price); [| lia].
  destruct (Z.leb_spec 1 q); [| lia].
  destruct (Z.leb_spec 0 (price * q)); [reflexivity | nia].
Qed.



(** ** updateOrderStatus: the remaining transitions *)

Lemma updateOrderStatus_missing id status notes env st :
  findOrder id st = None ->
  updateOrderStatus id status notes env st = (st, Throw (notFound OrderNotFound)).
Proof.
  intros Hfind. unfold updateOrderStatus, bind, Order_findById.
  unfold findOrder in Hfind. rewrite Hfind. reflexivity.
Qed.

(** Into a status without side effects. *)
Lemma updateOrderStatus_plain id status notes env st order :
  findOrder id st = Some order ->
  status ≠ delivered -> status ≠ cancelled -> status ≠ rejected ->
  let order' := processed status notes env order in
  updateOrderStatus id status notes env st
  = if validateOrder order then
      (mkState (products st) (movements st) (saved order' (orders st))
         (transactions st) (notified order' status (notifications st))
         (next_id st),
       Ok order')
    else (st, Throw (ValidationError "Order")).
Proof.
  intros Hfind Hd Hc Hr order'.
  unfold updateOrderStatus. unfold bind at 1. unfold Order_findById.
  unfold findOrder in Hfind. rewrite Hfind.
  fold (processed status notes env order).
  assert (E1 : bool_decide (status = delivered)
               && negb (bool_decide (Order.status order = delivered)) = false)
    by (rewrite (bool_decide_eq_false_2 _ Hd); reflexivity).
  assert (E2 : bool_decide (status = cancelled) || bool_decide (status = rejected)
               = false)
    by (rewrite (bool_decide_eq_false_2 _ Hc), (bool_decide_eq_false_2 _ Hr);
        reflexivity).
  rewrite E1, E2.
  fold order'.
  unfold bind at 1. unfold ret at 1. unfold bind at 1. unfold ret at 1.
  rewrite (save_and_notify order' status).
  subst order'. rewrite validateOrder_processed. reflexivity.
Qed.

Lemma find_saved_other (os : list Order.t) id o :
  Order._id o ≠ id ->
  find (fun x => N.eqb (Order._id x) id) (saved o os)
  = find (fun x => N.eqb (Order._id x) id) os.
Proof.
  intros Hne. unfold saved. induction os as [| x os IH]; [reflexivity |].
  cbn. destruct (N.eqb_spec (Order._id x) (Order._id o)) as [E | E].
  - destruct (N.eqb_spec (Order._id o) id); [contradiction |].
    destruct (N.eqb_spec (Order._id x) id) as [E' | E'].
    + exfalso. apply Hne. rewrite <- E. exact E'.
    + exact IH.
  - destruct (N.eqb (Order._id x) id); [reflexivity | exact IH].
Qed.

Lemma updateOrderStatus_Ok id status notes env st st' order' :
  updateOrderStatus id status notes env st = (st', Ok order') ->
  exists order,
    findOrder id st = Some order
    /\ order' = transitioned status notes env order
    /\ orders st' = saved order' (orders st)
    /\ notifications st' = notified order' status (notifications st)
    /\ movements st' = movements st
    /\ next_id st' = next_id st.
Proof.
  intros H.
  destruct (findOrder id st) as [order |] eqn:Hfind;
    [| rewrite (updateOrderStatus_missing _ _ _ _ _ Hfind) in H; discriminate H].
  exists order. split; [reflexivity |]. unfold transitioned.
  destruct (decide (status = delivered)) as [-> | Hd].
  - destruct (decide (Order.status order = delivered)) as [Hold | Hold].
    + rewrite (updateOrderStatus_redeliver id notes env st order Hfind Hold) in H.
      destruct (validateOrder order); [| discriminate H].
      injection H as <- <-. rewrite Hold. repeat split.
    + rewrite (updateOrderStatus_deliver id notes env st order Hfind Hold) in H.
      destruct (validateTransaction _); [| discriminate H].
      destruct (existsb _ (transactions st)); [discriminate H |].
      destruct (validateOrder order); [| discriminate H].
      injection H as <- <-.
      rewrite (bool_decide_eq_false_2 _ Hold). repeat split.
  - destruct (decide (status = cancelled \/ status = rejected)) as [Hcr | Hcr].
    + rewrite (updateOrderStatus_return id status notes env st order Hfind Hcr) in H.
      destruct (validateOrder order); [| discriminate H].
      injection H as <- <-.
      rewrite (bool_decide_eq_false_2 _ Hd). cbn [andb]. repeat split.
    + assert (Hc : status ≠ cancelled) by (intros ->; apply Hcr; left; reflexivity).
      assert (Hr : status ≠ rejected) by (intros ->; apply Hcr; right; reflexivity).
      rewrite (updateOrderStatus_plain id status notes env st order Hfind Hd Hc Hr) in H.
      destruct (validateOrder order); [| discriminate H].
      injection H as <- <-.
      rewrite (bool_decide_eq_false_2 _ Hd), (bool_decide_eq_false_2 _ Hr).
      cbn [andb]. repeat split.
Qed.

Lemma transitioned_id status notes env order :
  Order._id (transitioned status notes env order) = Order._id order.
Proof.
  unfold transitioned.
  destruct (bool_decide (status = rejected)), (_ && _); cbn; apply processed_id.
Qed.

(** X10. What every successful status update leaves behind, whatever the
    target status: the addressed order is stored with the new status,
    processedBy the caller and processedAt the request time; its notes are
    replaced only by non-empty notes; its items and amounts are unchanged;
    every other order is untouched; no movement is recorded; and exactly
    one notification is appended when the order has a customer (type
    'reject' for rejected, 'order' otherwise), none when it has none. An
    unknown id is answered with not-found and nothing is written. *)
Theorem updateOrderStatus_postcondition :
  forall id status notes env st,
    (findOrder id st = None ->
     updateOrderStatus id status notes env st
     = (st, Throw (notFound OrderNotFound)))
    /\ (forall st' order',
          updateOrderStatus id status notes env st = (st', Ok order') ->
          exists order,
            findOrder id st = Some order
            /\ findOrder id st' = Some order'
            /\ Order.status order' = status
            /\ Order.processedBy order' = Some (userId env)
            /\ Order.processedAt order' = Some (now env)
            /\ Order.notes order'
               = (if truthy notes then notes else Order.notes order)
            /\ Order.items order' = Order.items order
            /\ Order.totalAmount order' = Order.totalAmount order
            /\ (forall id', id' ≠ id -> findOrder id' st' = findOrder id' st)
            /\ movements st' = movements st
            /\ notifications st'
               = match Order.customerId order with
                 | Some customer =>
                     notifications st
                     ++ [Notification.mk customer ("Order " +:+ statusName status)
                           (if bool_decide (status = rejected)
                            then ntf_reject else ntf_order) id]
                 | None => notifications st
                 end).
Proof.
  intros id status notes env st. split; [apply updateOrderStatus_missing |].
  intros st' order' H.
  apply updateOrderStatus_Ok in H as (order & Hfind & -> & Horders & Hntf & Hmov & _).
  pose proof (find_id _ _ _ Hfind) as Hid.
  exists order. split; [exact Hfind |].
  assert (Hfacts :
    forall o, o = transitioned status notes env order ->
      Order.status o = status
      /\ Order.processedBy o = Some (userId env)
      /\ Order.processedAt o = Some (now env)
      /\ Order.notes o = (if truthy notes then notes else Order.notes order)
      /\ Order.items o = Order.items order
      /\ Order.totalAmount o = Order.totalAmount order
      /\ Order.customerId o = Order.customerId order).
  { intros o ->. unfold transitioned, processed.
    destruct (bool_decide (status = rejected)), (_ && _), (truthy notes);
      cbn; repeat split. }
  destruct (Hfacts _ eq_refl) as (H1 & H2 & H3 & H4 & H5 & H6 & H7).
  split.
  { unfold findOrder. rewrite Horders. unfold saved.
    apply (find_saved _ _ order); [exact Hfind |].
    rewrite transitioned_id. exact Hid. }
  do 6 (split; [assumption |]).
  split.
  { intros id' Hne. unfold findOrder. rewrite Horders.
    apply find_saved_other. rewrite transitioned_id, Hid.
    intros E. apply Hne. symmetry. exact E. }
  split; [exact Hmov |].
  rewrite Hntf. unfold notified. rewrite H7, transitioned_id, Hid. reflexivity.
Qed.

(** X11. A status update into pending, processing, confirmed, shipped or
    returned has no side effect on stock or money: no product is written,
    no transaction is posted, and the order keeps its payment status and
    cancel reason. In particular 'returned' neither restocks nor refunds. *)
Theorem plain_status_has_no_side_effects :
  forall id status notes env st st' order order',
    findOrder id st = Some order ->
    status ≠ delivered -> status ≠ cancelled -> status ≠ rejected ->
    updateOrderStatus id status notes env st = (st', Ok order') ->
    products st' = products st
    /\ transactions st' = transactions st
    /\ movements st' = movements st
    /\ Order.paymentStatus order' = Order.paymentStatus order
    /\ Order.cancelReason order' = Order.cancelReason order.
Proof.
  intros id status notes env st st' order order' Hfind Hd Hc Hr H.
  rewrite (updateOrderStatus_plain id status notes env st order Hfind Hd Hc Hr) in H.
  destruct (validateOrder order); [| discriminate H].
  injection H as <- <-. unfold processed.
  destruct (truthy notes); repeat split.
Qed.

Lemma plain_status_has_no_side_effects_witness :
  products (fst (updateOrderStatus 100 returned None clerk
                   (shopWithOrder 3 2 (oneWidgetOrder 2 delivered paid) [])))
  = products (shopWithOrder 3 2 (oneWidgetOrder 2 delivered paid) [])
  /\ Order.paymentStatus (setStatus returned 7 0 (oneWidgetOrder 2 delivered paid))
     = paid.
Proof.
  destruct (plain_status_has_no_side_effects 100 returned None clerk
              (shopWithOrder 3 2 (oneWidgetOrder 2 delivered paid) [])
              (fst (updateOrderStatus 100 returned None clerk
                      (shopWithOrder 3 2 (oneWidgetOrder 2 delivered paid) [])))
              (oneWidgetOrder 2 delivered paid)
              (setStatus returned 7 0 (oneWidgetOrder 2 delivered paid)))
    as (Hproducts & _ & _ & Hpaid & _);
    [reflexivity | discriminate | discriminate | discriminate
    | vm_compute; reflexivity |].
  split; [exact Hproducts | exact Hpaid].
Defined.



(** ** adjustStock: what it writes, what it records, how it fails *)

Lemma adjustStock_schema_errors id body st :
  adjustStockSchema body = true ->
  (exists resp st', adjustStock id body st = (st', Ok resp))
  \/ (products st !! id = None
      /\ adjustStock id body st = (st, Throw (notFound ProductNotFound)))
  \/ (exists p,
        products st !! id = Some p
        /\ type body ≠ "in" /\ change body < 0
        /\ Product.quantity p < Z.abs (change body)
        /\ adjustStock id body st
           = (st, Throw (badRequest
                           (InsufficientStockAvailable (Product.quantity p)
                              (Z.abs (change body))))))
  \/ (exists st', adjustStock id body st
                  = (st', Throw (ValidationError "InventoryMovement"))).
Proof.
  intros Hschema. unfold adjustStockSchema in Hschema.
  apply andb_prop in Hschema as [Hc Hty]. apply negb_true_iff in Hc.
  assert (Hne : String.eqb (type body) "" = false).
  { destruct (String.eqb_spec (type body) "") as [E |]; [| reflexivity].
    rewrite E in Hty. discriminate Hty. }
  unfold adjustStock. rewrite Hc, Hne. cbn [orb].
  run_handler.
  destruct (products st !! id) as [p |] eqn:Hp;
    [| right; left; split; reflexivity].
  unfold determineMovement.
  destruct (String.eqb_spec (type body) "in") as [Hin | Hin]; cbn [orb].
  - rewrite Hp. destruct (decide (mv_in = mv_out)) as [Hbad | _];
      [discriminate Hbad |]. cbn.
    match goal with
    | |- context [validateMovement ?m] => destruct (validateMovement m)
    end; [left | right; right; right]; eexists; try eexists; reflexivity.
  - destruct (Z.ltb_spec 0 (change body)) as [Hpos | Hpos].
    + rewrite Hp. destruct (decide (mv_in = mv_out)) as [Hbad | _];
        [discriminate Hbad |]. cbn.
      match goal with
      | |- context [validateMovement ?m] => destruct (validateMovement m)
      end; [left | right; right; right]; eexists; try eexists; reflexivity.
    + apply Z.eqb_neq in Hc.
      assert (Hneg : (change body <? 0) = true) by (apply Z.ltb_lt; lia).
      rewrite Hneg, orb_true_r. cbn zeta.
      destruct (Z.ltb_spec (Product.quantity p) (Z.abs (change body))) as [Hlt | Hge].
      * right; right; left. exists p. repeat split; try assumption. lia.
      * rewrite Hp. destruct (decide (mv_out = mv_out)) as [_ | Hbad];
          [| contradiction].
        destruct (Z.leb_spec (Z.abs (change body)) (Product.quantity p)); [| lia].
        cbn.
        match goal with
        | |- context [validateMovement ?m] => destruct (validateMovement m)
        end; [left | right; right; right]; eexists; try eexists; reflexivity.
Qed.

Lemma adjustStock_missing id body st :
  adjustStockSchema body = true ->
  products st !! id = None ->
  adjustStock id body st = (st, Throw (notFound ProductNotFound)).
Proof.
  intros Hschema Hnone. unfold adjustStockSchema in Hschema.
  apply andb_prop in Hschema as [Hc Hty]. apply negb_true_iff in Hc.
  assert (Hne : String.eqb (type body) "" = false).
  { destruct (String.eqb_spec (type body) "") as [E0 |]; [| reflexivity].
    rewrite E0 in Hty. discriminate Hty. }
  unfold adjustStock. rewrite Hc, Hne. cbn [orb]. run_handler.
  rewrite Hnone. reflexivity.
Qed.





(** X15. Whatever its outcome, a stock adjustment writes nothing but the
    addressed product's quantity and stock_status and the movement list:
    orders, transactions and notifications are unchanged, every other
    product is unchanged, no product appears or disappears, and the
    addressed product keeps its name, threshold, publish flag, status,
    price, stockQuantity and soldQuantity. *)
Theorem adjustStock_frame :
  forall id body st,
    orders (fst (adjustStock id body st)) = orders st
    /\ transactions (fst (adjustStock id body st)) = transactions st
    /\ notifications (fst (adjustStock id body st)) = notifications st
    /\ (forall id', id' ≠ id ->
          products (fst (adjustStock id body st)) !! id' = products st !! id')
    /\ (fun p => (Product.name p, Product.low_stock_quantity p, Product.publish p,
                  Product.status p, Product.price p, Product.stockQuantity p,
                  Product.soldQuantity p))
         <$> products (fst (adjustStock id body st)) !! id
       = (fun p => (Product.name p, Product.low_stock_quantity p, Product.publish p,
                    Product.status p, Product.price p, Product.stockQuantity p,
                    Product.soldQuantity p))
           <$> products st !! id.
Proof.
  intros id body st.
  destruct (adjustStock_run id body st)
    as [[e E] | (p & mt & nq & Hc & Hp & Hd & E)].
  - rewrite E. cbn. repeat split.
  - cbn zeta in E. rewrite E.
    match goal with
    | |- context [validateMovement ?m] => destruct (validateMovement m)
    end; cbn; (split; [reflexivity |]); (split; [reflexivity |]);
      (split; [reflexivity |]);
      (split; [intros id' Hne; apply lookup_insert_ne; congruence |]);
      rewrite lookup_insert_eq, Hp; reflexivity.
Qed.

(** ** updateProduct *)


(** ** generateSlug *)

Lemma isDash_eq c : isDash c = true -> c = dash.
Proof. unfold isDash. apply Ascii.eqb_eq. Qed.

Lemma alnum_not_dash c : isSlugAlnum c = true -> isDash c = false.
Proof.
  intros H. destruct (isDash c) eqn:E; [| reflexivity].
  apply isDash_eq in E. subst c. vm_compute in H. discriminate H.
Qed.

Lemma toLowerCaseUnit_fixed c :
  isSlugAlnum c || isDash c = true -> toLowerCaseUnit c = c.
Proof.
  destruct c as [[] [] [] [] [] [] [] []]; vm_compute;
    intros H; first [reflexivity | discriminate H].
Qed.

Lemma noDoubleDash_cons c l :
  noDoubleDash (c :: l) = negb (isDash c && startsWithDash l) && noDoubleDash l.
Proof. destruct l; cbn; [rewrite andb_false_r |]; reflexivity. Qed.

Lemma endsWithDash_cons c l :
  endsWithDash (c :: l) = match l with [] => isDash c | _ => endsWithDash l end.
Proof. destruct l; reflexivity. Qed.

Lemma replaceRuns_shape l :
  forall inRun,
    forallb (fun c => isSlugAlnum c || isDash c) (replaceRuns inRun l) = true
    /\ noDoubleDash (replaceRuns inRun l) = true
    /\ (inRun = true -> startsWithDash (replaceRuns inRun l) = false).
Proof.
  induction l as [| c l IH]; intros inRun; [repeat split |].
  cbn [replaceRuns].
  destruct (isSlugAlnum c) eqn:Hc.
  - destruct (IH false) as (Hall & Hdd & _).
    split; [cbn; rewrite Hc, Hall; reflexivity |].
    rewrite noDoubleDash_cons, (alnum_not_dash c Hc), Hdd.
    split; [reflexivity |]. intros _. cbn. apply alnum_not_dash. exact Hc.
  - destruct (IH true) as (Hall & Hdd & Hhead). destruct inRun.
    + split; [exact Hall |]. split; [exact Hdd |]. intros _. apply Hhead. reflexivity.
    + split; [cbn [forallb]; rewrite Hall; reflexivity |].
      rewrite noDoubleDash_cons, Hhead, Hdd by reflexivity.
      split; [rewrite andb_false_r; reflexivity | discriminate].
Qed.

Lemma stripLeadingDashes_shape l :
  forallb (fun c => isSlugAlnum c || isDash c) l = true ->
  noDoubleDash l = true ->
  forallb (fun c => isSlugAlnum c || isDash c) (stripLeadingDashes l) = true
  /\ noDoubleDash (stripLeadingDashes l) = true
  /\ startsWithDash (stripLeadingDashes l) = false.
Proof.
  induction l as [| c l IH]; intros Hall Hdd; [repeat split |].
  cbn [stripLeadingDashes]. cbn [forallb] in Hall.
  apply andb_prop in Hall as [Hc Hall].
  rewrite noDoubleDash_cons in Hdd. apply andb_prop in Hdd as [_ Hdd].
  destruct (isDash c) eqn:Hd; [exact (IH Hall Hdd) |].
  split; [cbn [forallb]; rewrite ?Hd; rewrite Hc, Hall; reflexivity |].
  split; [| exact Hd].
  rewrite noDoubleDash_cons, Hd, Hdd. reflexivity.
Qed.

Lemma stripTrailingDashes_shape l :
  forallb (fun c => isSlugAlnum c || isDash c) l = true ->
  noDoubleDash l = true ->
  startsWithDash l = false ->
  forallb (fun c => isSlugAlnum c || isDash c) (stripTrailingDashes l) = true
  /\ noDoubleDash (stripTrailingDashes l) = true
  /\ startsWithDash (stripTrailingDashes l) = false
  /\ endsWithDash (stripTrailingDashes l) = false
  /\ (startsWithDash (stripTrailingDashes l) = true -> startsWithDash l = true).
Proof.
  assert (Hgen : forall l,
    forallb (fun c => isSlugAlnum c || isDash c) l = true ->
    noDoubleDash l = true ->
    forallb (fun c => isSlugAlnum c || isDash c) (stripTrailingDashes l) = true
    /\ noDoubleDash (stripTrailingDashes l) = true
    /\ endsWithDash (stripTrailingDashes l) = false
    /\ startsWithDash (stripTrailingDashes l) = startsWithDash l
                                                  && negb (match stripTrailingDashes l with [] => true | _ => false end)).
  { clear l. induction l as [| c l IH]; intros Hall Hdd; [repeat split |].
    cbn [forallb] in Hall. apply andb_prop in Hall as [Hc Hall].
    rewrite noDoubleDash_cons in Hdd. apply andb_prop in Hdd as [Hcd Hdd].
    destruct (IH Hall Hdd) as (Hall' & Hdd' & Hend' & Hstart').
    cbn [stripTrailingDashes].
    destruct (stripTrailingDashes l) as [| c' l'] eqn:Hs.
    - destruct (isDash c) eqn:Hd;
        [repeat split; cbn; rewrite ?andb_false_r; reflexivity |].
      split.
      { cbn [forallb]. apply andb_true_intro. split; [| reflexivity].
        first [exact Hc | rewrite Hd; exact Hc]. }
      split; [reflexivity |]. split; [exact Hd |].
      cbn. rewrite andb_true_r. reflexivity.
    - split; [cbn [forallb]; rewrite Hc; exact Hall' |].
      split.
      { rewrite noDoubleDash_cons, Hdd'. rewrite Hstart'.
        cbn [negb andb]. rewrite andb_true_r.
        rewrite andb_true_r. exact Hcd. }
      split; [rewrite endsWithDash_cons; exact Hend' |].
      cbn. rewrite andb_true_r. reflexivity. }
  intros Hall Hdd Hstart.
  destruct (Hgen l Hall Hdd) as (H1 & H2 & H3 & H4).
  split; [exact H1 |]. split; [exact H2 |].
  rewrite H4, Hstart. repeat split; try assumption. discriminate.
Qed.

(** Every outcome of generateSlug is a well-formed slug. *)
Lemma slugUnits_isSlug text : isSlug (slugUnits text) = true.
Proof.
  unfold slugUnits, isSlug.
  destruct (replaceRuns_shape (map toLowerCaseUnit text) false) as (H1 & H2 & _).
  destruct (stripLeadingDashes_shape _ H1 H2) as (H3 & H4 & H5).
  destruct (stripTrailingDashes_shape _ H3 H4 H5) as (H6 & H7 & H8 & H9 & _).
  rewrite H6, H7, H8, H9. reflexivity.
Qed.

Lemma replaceRuns_fixed l :
  forall inRun,
    forallb (fun c => isSlugAlnum c || isDash c) l = true ->
    noDoubleDash l = true ->
    (inRun = true -> startsWithDash l = false) ->
    replaceRuns inRun l = l.
Proof.
  induction l as [| c l IH]; intros inRun Hall Hdd Hrun; [reflexivity |].
  cbn [forallb] in Hall. apply andb_prop in Hall as [Hc Hall].
  rewrite noDoubleDash_cons in Hdd. apply andb_prop in Hdd as [Hcd Hdd].
  cbn [replaceRuns]. destruct (isSlugAlnum c) eqn:Ha.
  - rewrite (IH false Hall Hdd) by discriminate. reflexivity.
  - cbn [orb] in Hc. destruct inRun.
    + specialize (Hrun eq_refl). cbn in Hrun. rewrite Hc in Hrun. discriminate Hrun.
    + rewrite (isDash_eq c Hc) in *. rewrite (IH true Hall Hdd); [reflexivity |].
      intros _. change (isDash dash) with true in Hcd. cbn [andb] in Hcd.
      apply negb_true_iff in Hcd. exact Hcd.
Qed.

Lemma stripLeadingDashes_fixed l :
  startsWithDash l = false -> stripLeadingDashes l = l.
Proof. destruct l as [| c l]; [reflexivity |]. cbn. intros ->. reflexivity. Qed.

Lemma stripTrailingDashes_fixed l :
  endsWithDash l = false -> stripTrailingDashes l = l.
Proof.
  induction l as [| c l IH]; [reflexivity |].
  rewrite endsWithDash_cons. cbn [stripTrailingDashes].
  destruct l as [| c' l'].
  - cbn. intros ->. reflexivity.
  - intros H. rewrite (IH H). reflexivity.
Qed.

Lemma slugUnits_fixed l : isSlug l = true -> slugUnits l = l.
Proof.
  unfold isSlug. intros H.
  apply andb_prop in H as [H Hend]. apply andb_prop in H as [H Hstart].
  apply andb_prop in H as [Hall Hdd].
  apply negb_true_iff in Hend. apply negb_true_iff in Hstart.
  unfold slugUnits.
  assert (Hmap : map toLowerCaseUnit l = l).
  { clear Hdd Hstart Hend. induction l as [| c l IH]; [reflexivity |].
    cbn [forallb] in Hall. apply andb_prop in Hall as [Hc Hall].
    cbn [map]. rewrite (toLowerCaseUnit_fixed c Hc), (IH Hall). reflexivity. }
  rewrite Hmap, (replaceRuns_fixed l false Hall Hdd) by discriminate.
  rewrite (stripLeadingDashes_fixed l Hstart).
  apply stripTrailingDashes_fixed. exact Hend.
Qed.

(** X17. generateSlug always returns a well-formed slug: only characters
    of [a-z0-9-], no dash at the start or the end, no two dashes in a row. *)
Theorem generateSlug_well_formed :
  forall text : string,
    isSlug (String.list_ascii_of_string (generateSlug text)) = true.
Proof.
  intros text. unfold generateSlug.
  rewrite String.list_ascii_of_string_of_list_ascii. apply slugUnits_isSlug.
Qed.

(** X18. generateSlug leaves every well-formed slug as it is, so applying
    it twice gives the same as applying it once. *)
Theorem generateSlug_idempotent :
  forall text : string,
    (isSlug (String.list_ascii_of_string text) = true -> generateSlug text = text)
    /\ generateSlug (generateSlug text) = generateSlug text.
Proof.
  intros text.
  assert (Hfix : forall s, isSlug (String.list_ascii_of_string s) = true ->
                           generateSlug s = s).
  { intros s H. unfold generateSlug. rewrite (slugUnits_fixed _ H).
    apply String.string_of_list_ascii_of_string. }
  split; [apply Hfix |]. apply Hfix. unfold generateSlug.
  rewrite String.list_ascii_of_string_of_list_ascii. apply slugUnits_isSlug.
Qed.

Lemma replaceRuns_alnum l :
  forall inRun, existsb isSlugAlnum (replaceRuns inRun l) = existsb isSlugAlnum l.
Proof.
  induction l as [| c l IH]; intros inRun; [reflexivity |].
  cbn [replaceRuns existsb]. destruct (isSlugAlnum c) eqn:Hc.
  - cbn [existsb]. rewrite Hc. reflexivity.
  - cbn [orb]. destruct inRun; [apply IH |].
    cbn [existsb]. rewrite IH. reflexivity.
Qed.

Lemma stripLeadingDashes_alnum l :
  existsb isSlugAlnum (stripLeadingDashes l) = existsb isSlugAlnum l.
Proof.
  induction l as [| c l IH]; [reflexivity |].
  cbn [stripLeadingDashes]. destruct (isDash c) eqn:Hd; [| reflexivity].
  cbn [existsb]. rewrite IH.
  destruct (isSlugAlnum c) eqn:Hc; [| reflexivity].
  rewrite (alnum_not_dash c Hc) in Hd. discriminate Hd.
Qed.

Lemma stripTrailingDashes_alnum l :
  existsb isSlugAlnum (stripTrailingDashes l) = existsb isSlugAlnum l.
Proof.
  induction l as [| c l IH]; [reflexivity |].
  cbn [stripTrailingDashes existsb]. rewrite <- IH.
  destruct (stripTrailingDashes l) as [| c' l'].
  - destruct (isDash c) eqn:Hd; [| reflexivity]. cbn.
    destruct (isSlugAlnum c) eqn:Hc; [| reflexivity].
    rewrite (alnum_not_dash c Hc) in Hd. discriminate Hd.
  - reflexivity.
Qed.

(** X19. generateSlug returns the empty string exactly for the texts
    without a letter or digit (no unit whose lower case is in [a-z0-9]):
    such a name has no slug. *)
Theorem generateSlug_empty_iff :
  forall text : string,
    generateSlug text = ""
    <-> existsb (fun c => isSlugAlnum (toLowerCaseUnit c))
          (String.list_ascii_of_string text) = false.
Proof.
  intros text. unfold generateSlug.
  set (l := String.list_ascii_of_string text).
  assert (Hex : existsb isSlugAlnum (slugUnits l)
                = existsb (fun c => isSlugAlnum (toLowerCaseUnit c)) l).
  { unfold slugUnits.
    rewrite stripTrailingDashes_alnum, stripLeadingDashes_alnum, replaceRuns_alnum.
    induction l as [| c l' IH]; [reflexivity |]. cbn. rewrite IH. reflexivity. }
  rewrite <- Hex. pose proof (slugUnits_isSlug l) as Hslug.
  destruct (slugUnits l) as [| c r] eqn:Hs.
  - split; reflexivity.
  - split; [intros H; discriminate H |].
    intros Hnone. exfalso. unfold isSlug in Hslug.
    apply andb_prop in Hslug as [Hslug _]. apply andb_prop in Hslug as [Hslug Hstart].
    apply andb_prop in Hslug as [Hall _].
    cbn in Hall, Hstart, Hnone. apply negb_true_iff in Hstart.
    rewrite Hstart, orb_false_r in Hall.
    apply andb_prop in Hall as [Hc _]. rewrite Hc in Hnone. discriminate Hnone.
Qed.

(** ** getLowStockProducts and deleteProduct *)

Global Instance byQuantity_total : Total byQuantity.
Proof. intros a b. unfold byQuantity. lia. Qed.

Lemma lowStockQuery_true p :
  lowStockQuery p = true
  <-> Product.publish p = true
      /\ (Product.stock_status p = low_stock \/ Product.stock_status p = out_of_stock).
Proof.
  unfold lowStockQuery. rewrite andb_true_iff, orb_true_iff.
  rewrite !bool_decide_eq_true. tauto.
Qed.

Lemma listed_iff st id p listing :
  getLowStockProducts st = (st, Ok listing) ->
  (id, p) ∈ listing
  <-> products st !! id = Some p /\ lowStockQuery p = true.
Proof.
  unfold getLowStockProducts. intros H. injection H as <-.
  rewrite merge_sort_Permutation, list_elem_of_filter, elem_of_map_to_list.
  cbn. tauto.
Qed.

(** X20. getLowStockProducts lists exactly the published products whose
    stored stock_status is low_stock or out_of_stock, each once, in
    non-decreasing order of quantity, and writes nothing. *)
Theorem getLowStockProducts_lists :
  forall st,
    exists listing,
      getLowStockProducts st = (st, Ok listing)
      /\ (forall id p,
            (id, p) ∈ listing
            <-> products st !! id = Some p
                /\ Product.publish p = true
                /\ (Product.stock_status p = low_stock
                    \/ Product.stock_status p = out_of_stock))
      /\ Sorted byQuantity listing
      /\ NoDup (map fst listing).
Proof.
  intros st. eexists. split; [reflexivity |]. split; [| split].
  - intros id p. rewrite (listed_iff st id p _ eq_refl), lowStockQuery_true.
    tauto.
  - apply Sorted_merge_sort. apply _.
  - assert (Hperm : map fst (merge_sort byQuantity
                       (filter (fun kp => lowStockQuery (snd kp) = true)
                          (map_to_list (products st))))
                    ≡ₚ map fst (filter (fun kp => lowStockQuery (snd kp) = true)
                                  (map_to_list (products st)))).
    { apply fmap_Permutation. apply merge_sort_Permutation. }
    rewrite Hperm.
    apply (sublist_NoDup _ (map fst (map_to_list (products st))));
      first [apply (NoDup_fst_map_to_list (products st))
            | apply (fmap_sublist fst), sublist_filter].
Qed.



Lemma itemRejected_ext st st' item :
  (forall pid,
     (fun p => (Product.status p, Product.stockQuantity p)) <$> products st' !! pid
     = (fun p => (Product.status p, Product.stockQuantity p)) <$> products st !! pid) ->
  itemRejected st' item = itemRejected st item.
Proof.
  intros H. unfold itemRejected. specialize (H (item_productId item)).
  destruct (products st' !! item_productId item) as [p' |],
           (products st !! item_productId item) as [p |];
    cbn in H; try discriminate H; [| reflexivity].
  injection H as -> ->. reflexivity.
Qed.

Lemma snapshot_ext st st' item :
  (forall pid,
     (fun p => (Product.name p, Product.price p)) <$> products st' !! pid
     = (fun p => (Product.name p, Product.price p)) <$> products st !! pid) ->
  snapshot st' item = snapshot st item.
Proof.
  intros H. unfold snapshot. specialize (H (item_productId item)).
  destruct (products st' !! item_productId item) as [p' |],
           (products st !! item_productId item) as [p |];
    cbn in H; try discriminate H; [| reflexivity].
  injection H as -> ->. reflexivity.
Qed.



(** X23. A hard delete removes the product document; the orders that refer
    to it and the movement records stay. From then on a stock adjustment for
    it is answered with not-found, and every order request with an item for
    it is turned down without writing. *)
Theorem deleteProduct_hard_removes :
  forall id st p,
    products st !! id = Some p ->
    exists st',
      deleteProduct (Some "hard") id st = (st', Ok tt)
      /\ products st' = delete id (products st)
      /\ orders st' = orders st
      /\ movements st' = movements st
      /\ (forall body,
            adjustStockSchema body = true ->
            adjustStock id body st' = (st', Throw (notFound ProductNotFound)))
      /\ (forall body env,
            In id (map item_productId (body_items body)) ->
            exists e, createOrder body env st' = (st', Throw e)).
Proof.
  intros id st p Hp.
  unfold deleteProduct. unfold bind at 1. unfold Product_findById. rewrite Hp.
  cbn. eexists. split; [reflexivity |].
  split; [reflexivity |]. split; [reflexivity |]. split; [reflexivity |].
  set (st' := setProducts (delete id (products st)) st).
  assert (Hgone : products st' !! id = None) by apply lookup_delete_eq.
  split.
  - intros body Hschema. apply adjustStock_missing; assumption.
  - intros body env Hin.
    assert (Hrejected : existsb (itemRejected st') (body_items body) = true).
    { apply existsb_exists.
      apply in_map_iff in Hin as (item & Hid & Hitem).
      exists item. split; [exact Hitem |].
      unfold itemRejected. rewrite Hid, Hgone. reflexivity. }
    pose proof (createOrder_run body env st') as Hrun.
    unfold orderAccepted in Hrun. rewrite Hrejected in Hrun.
    rewrite andb_false_r in Hrun. exact Hrun.
Qed.

Lemma deleteProduct_hard_removes_witness :
  exists st',
    deleteProduct (Some "hard") 1 (shop 2 2 low_stock 2) = (st', Ok tt)
    /\ products st' !! 1%N = None.
Proof.
  destruct (deleteProduct_hard_removes 1 (shop 2 2 low_stock 2)
              (widget 2 2 low_stock 2))
    as (st' & Hrun & Hproducts & _); [reflexivity |].
  exists st'. split; [exact Hrun |]. rewrite Hproducts. reflexivity.
Defined.

(** ** getOrderStats *)

Section SumByStatus.
Variable f : Order.t -> Z.

Lemma sumOver_among (ss : list OrderStatus) (os : list Order.t) :
  NoDup ss ->
  sumZ (map (fun s => sumOver f (withStatus s os)) ss)
  = sumOver f (filter (fun o => Order.status o ∈ ss) os).
Proof.
  intros Hnd. induction Hnd as [| s ss Hs _ IH]; cbn [map sumZ foldr].
  - induction os as [| o os IHos]; [reflexivity |].
    rewrite filter_cons, decide_False by apply not_elem_of_nil. exact IHos.
  - fold (sumZ (map (fun s => sumOver f (withStatus s os)) ss)). rewrite IH.
    clear IH. unfold withStatus.
    induction os as [| o os IHos]; [reflexivity |].
    rewrite !filter_cons.
    destruct (decide (Order.status o = s)) as [E | E].
    + rewrite decide_False by (rewrite E; exact Hs).
      rewrite decide_True by (rewrite E; apply list_elem_of_here).
      unfold sumOver in *. cbn [foldr] in *. lia.
    + destruct (decide (Order.status o ∈ ss)) as [Hin | Hin].
      * rewrite decide_True by (apply list_elem_of_further; exact Hin).
        unfold sumOver in *. cbn [foldr] in *. lia.
      * rewrite decide_False
          by (intros [? | ?]%elem_of_cons; [apply E | apply Hin]; assumption).
        exact IHos.
Qed.

Lemma sumOver_by_status (os : list Order.t) :
  sumZ (map (fun s => sumOver f (withStatus s os))
          (remove_dups (map Order.status os)))
  = sumOver f os.
Proof.
  rewrite sumOver_among by apply NoDup_remove_dups. f_equal.
  assert (H : Forall (fun o => Order.status o ∈ remove_dups (map Order.status os)) os).
  { apply Forall_forall. intros o Ho. apply elem_of_remove_dups.
    apply list_elem_of_fmap. exists o. split; [reflexivity | exact Ho]. }
  revert H. generalize (remove_dups (map Order.status os)) as ss. intros ss H.
  induction H as [| o os' Ho _ IH]; [reflexivity |].
  rewrite filter_cons, decide_True by exact Ho. rewrite IH. reflexivity.
Qed.

End SumByStatus.

Lemma sumOver_one os : sumOver (fun _ => 1) os = Z.of_nat (length os).
Proof.
  induction os as [| o os IH]; [reflexivity |].
  unfold sumOver in *. cbn [foldr length]. rewrite IH. lia.
Qed.

Lemma totalRevenue_delivered st :
  OrderStats.totalRevenue
    (match snd (getOrderStats st) with
     | Ok r => r
     | Throw _ => OrderStats.mk [] 0 0
     end)
  = sumTotalAmount (withStatus delivered (orders st)).
Proof.
  cbn. unfold deliveredTotal.
  destruct (withStatus delivered (orders st)) as [| o ds]; [reflexivity |].
  destruct (Z.eqb_spec (sumTotalAmount (o :: ds)) 0) as [E | _];
    [symmetry; exact E | reflexivity].
Qed.

(** X24. The order statistics are a partition of the stored orders by
    status: there is exactly one group for each status that occurs, every
    group counts at least one order, the group counts add up to the total
    number of orders, the group amounts add up to the amount of all orders,
    and the total revenue is the amount of the delivered group (0 when no
    order is delivered). Nothing is written. *)
Theorem getOrderStats_partition :
  forall st,
    exists r,
      getOrderStats st = (st, Ok r)
      /\ NoDup (map StatusGroup._id (OrderStats.stats r))
      /\ (forall s,
            In s (map StatusGroup._id (OrderStats.stats r))
            <-> exists o, In o (orders st) /\ Order.status o = s)
      /\ (forall g, In g (OrderStats.stats r) -> 1 <= StatusGroup.count g)
      /\ sumZ (map StatusGroup.count (OrderStats.stats r)) = OrderStats.total r
      /\ OrderStats.total r = Z.of_nat (length (orders st))
      /\ sumZ (map StatusGroup.totalAmount (OrderStats.stats r))
         = sumTotalAmount (orders st)
      /\ OrderStats.totalRevenue r
         = match find (fun g => bool_decide (StatusGroup._id g = delivered))
                   (OrderStats.stats r) with
           | Some g => StatusGroup.totalAmount g
           | None => 0
           end.
Proof.
  intros st. eexists. split; [reflexivity |].
  cbn [OrderStats.stats OrderStats.total OrderStats.totalRevenue].
  unfold groupByStatus. rewrite !map_map. cbn [StatusGroup._id StatusGroup.count
                                                StatusGroup.totalAmount].
  rewrite map_id.
  split; [apply NoDup_remove_dups |].
  split.
  { intros s. rewrite <- list_elem_of_In, elem_of_remove_dups, list_elem_of_In.
    rewrite in_map_iff. split; intros [o [H1 H2]]; exists o; split; assumption. }
  split.
  { intros g [s [<- Hs]]%in_map_iff. cbn.
    apply list_elem_of_In, elem_of_remove_dups, list_elem_of_fmap in Hs
      as [o [-> Ho]].
    assert (Hin : o ∈ withStatus (Order.status o) (orders st))
      by (apply list_elem_of_filter; split; [reflexivity | exact Ho]).
    destruct (withStatus (Order.status o) (orders st));
      [inversion Hin | cbn; lia]. }
  split.
  { rewrite <- sumOver_one, <- (sumOver_by_status (fun _ => 1)).
    f_equal. apply map_ext. intros s. symmetry. apply sumOver_one. }
  split; [reflexivity |].
  split; [apply (sumOver_by_status Order.totalAmount) |].
  pose proof (totalRevenue_delivered st) as Hrev. cbn in Hrev. rewrite Hrev.
  clear Hrev.
  assert (Hfind : forall ss,
            find (fun g => bool_decide (StatusGroup._id g = delivered))
              (map (fun s =>
                      StatusGroup.mk s
                        (Z.of_nat (length (withStatus s (orders st))))
                        (sumTotalAmount (withStatus s (orders st)))) ss)
            = if decide (delivered ∈ ss)
              then Some (StatusGroup.mk delivered
                           (Z.of_nat (length (withStatus delivered (orders st))))
                           (sumTotalAmount (withStatus delivered (orders st))))
              else None).
  { induction ss as [| s ss IH]; [reflexivity |].
    cbn [map find StatusGroup._id].
    destruct (decide (s = delivered)) as [-> | Hs].
    - rewrite bool_decide_eq_true_2 by reflexivity.
      rewrite decide_True by apply list_elem_of_here. reflexivity.
    - rewrite bool_decide_eq_false_2 by exact Hs. rewrite IH.
      destruct (decide (delivered ∈ ss)) as [Hin | Hin].
      + rewrite decide_True by (apply list_elem_of_further; exact Hin).
        reflexivity.
      + rewrite decide_False; [reflexivity |].
        intros [E | ?]%elem_of_cons; [apply Hs; symmetry; exact E | contradiction]. }
  rewrite Hfind. clear Hfind.
  destruct (decide (delivered ∈ remove_dups (map Order.status (orders st))))
    as [Hin | Hin]; [reflexivity |].
  rewrite elem_of_remove_dups in Hin.
  assert (Hnone : withStatus delivered (orders st) = []).
  { unfold withStatus. revert Hin. generalize (orders st) as os.
    induction os as [| o os IH]; intros Hin; [reflexivity |].
    rewrite filter_cons.
    destruct (decide (Order.status o = delivered)) as [E | E].
    - exfalso. apply Hin. cbn. rewrite E. apply list_elem_of_here.
    - apply IH. intros H. apply Hin. cbn. apply list_elem_of_further. exact H. }
  rewrite Hnone. reflexivity.
Qed.

Lemma getOrderStats_Ok st st' r :
  getOrderStats st = (st', Ok r) ->
  OrderStats.total r = Z.of_nat (length (orders st))
  /\ OrderStats.totalRevenue r = sumTotalAmount (withStatus delivered (orders st)).
Proof.
  intros H. pose proof (totalRevenue_delivered st) as Hrev.
  rewrite H in Hrev. cbn [snd] in Hrev. split; [| exact Hrev].
  injection H as _ <-. reflexivity.
Qed.

Lemma saved_fresh (o : Order.t) (os : list Order.t) :
  Order._id o ∉ map Order._id os -> saved o os = os.
Proof.
  unfold saved. induction os as [| x os IH]; [reflexivity |].
  cbn [map]. intros [Hx Hos]%not_elem_of_cons.
  destruct (N.eqb_spec (Order._id x) (Order._id o)) as [E | _];
    [exfalso; apply Hx; symmetry; exact E |].
  rewrite (IH Hos). reflexivity.
Qed.

Lemma saved_ids (o : Order.t) (os : list Order.t) :
  map Order._id (saved o os) = map Order._id os.
Proof.
  unfold saved. induction os as [| x os IH]; [reflexivity |].
  cbn [map]. rewrite IH.
  destruct (N.eqb_spec (Order._id x) (Order._id o)) as [E | _];
    [rewrite E |]; reflexivity.
Qed.

Lemma saved_delivered (os : list Order.t) id order o' :
  NoDup (map Order._id os) ->
  find (fun x => N.eqb (Order._id x) id) os = Some order ->
  Order._id o' = id ->
  sumTotalAmount (withStatus delivered (saved o' os))
  = sumTotalAmount (withStatus delivered os)
    - (if bool_decide (Order.status order = delivered)
       then Order.totalAmount order else 0)
    + (if bool_decide (Order.status o' = delivered)
       then Order.totalAmount o' else 0).
Proof.
  intros Hnd Hfind Hid. subst id.
  induction os as [| x os IH]; [discriminate Hfind |].
  cbn [map] in Hnd. apply NoDup_cons in Hnd as [Hx Hnd].
  cbn [find] in Hfind.
  destruct (N.eqb_spec (Order._id x) (Order._id o')) as [E | E].
  - injection Hfind as <-.
    assert (Hsaved : saved o' (x :: os) = o' :: os).
    { unfold saved. cbn [map]. rewrite (proj2 (N.eqb_eq _ _) E).
      f_equal. apply saved_fresh. rewrite <- E. exact Hx. }
    rewrite Hsaved. unfold withStatus. rewrite !filter_cons.
    destruct (decide (Order.status o' = delivered)) as [Ho | Ho];
      [rewrite (bool_decide_eq_true_2 _ Ho)
      | rewrite (bool_decide_eq_false_2 _ Ho)];
      (destruct (decide (Order.status x = delivered)) as [Hs | Hs];
       [rewrite (bool_decide_eq_true_2 _ Hs)
       | rewrite (bool_decide_eq_false_2 _ Hs)]);
      unfold sumTotalAmount; cbn [foldr]; lia.
  - specialize (IH Hnd Hfind).
    assert (Hsaved : saved o' (x :: os) = x :: saved o' os).
    { unfold saved. cbn [map].
      rewrite (proj2 (N.eqb_neq _ _) E). reflexivity. }
    rewrite Hsaved. unfold withStatus in *. rewrite !filter_cons.
    destruct (decide (Order.status x = delivered));
      unfold sumTotalAmount in *; cbn [foldr] in *; lia.
Qed.

(** X25. A status update moves an order's amount in and out of the total
    revenue of the order statistics and never changes the number of
    orders: with distinct order ids, the revenue after a successful update
    is the revenue before, less the order's amount when the order was
    delivered, plus that amount when the new status is delivered. So
    delivering raises the revenue by the order's amount, and moving a
    delivered order to any other status takes it off again. *)
Theorem updateOrderStatus_moves_revenue :
  forall id status notes env st st' order' r r',
    NoDup (map Order._id (orders st)) ->
    updateOrderStatus id status notes env st = (st', Ok order') ->
    getOrderStats st = (st, Ok r) ->
    getOrderStats st' = (st', Ok r') ->
    exists order,
      findOrder id st = Some order
      /\ NoDup (map Order._id (orders st'))
      /\ OrderStats.total r' = OrderStats.total r
      /\ OrderStats.totalRevenue r'
         = OrderStats.totalRevenue r
           - (if bool_decide (Order.status order = delivered)
              then Order.totalAmount order else 0)
           + (if bool_decide (status = delivered)
              then Order.totalAmount order else 0).
Proof.
  intros id status notes env st st' order' r r' Hnd Hrun Hr Hr'.
  destruct (updateOrderStatus_Ok _ _ _ _ _ _ _ Hrun)
    as (order & Hfind & Horder' & Horders & _).
  destruct (getOrderStats_Ok _ _ _ Hr) as [Ht Hrev].
  destruct (getOrderStats_Ok _ _ _ Hr') as [Ht' Hrev'].
  assert (Hid : Order._id order' = id).
  { rewrite Horder', transitioned_id. apply (find_id _ _ _ Hfind). }
  assert (Hstatus : Order.status order' = status).
  { rewrite Horder'. unfold transitioned.
    destruct (bool_decide (status = rejected)), (_ && _); cbn;
      apply processed_status. }
  assert (Hamount : Order.totalAmount order' = Order.totalAmount order).
  { rewrite Horder'. unfold transitioned.
    destruct (bool_decide (status = rejected)), (_ && _); cbn;
      apply processed_totalAmount. }
  exists order. split; [exact Hfind |].
  split; [rewrite Horders, saved_ids; exact Hnd |].
  split.
  - rewrite Ht, Ht', Horders. unfold saved. rewrite length_map. reflexivity.
  - rewrite Hrev, Hrev', Horders.
    rewrite (saved_delivered (orders st) id order order' Hnd Hfind Hid).
    rewrite Hstatus, Hamount. reflexivity.
Qed.

Lemma updateOrderStatus_moves_revenue_witness :
  exists order,
    findOrder 100 (shopWithOrder 5 0 (oneWidgetOrder 2 pending unpaid) [])
    = Some order
    /\ Order.totalAmount order = 20.
Proof.
  destruct (updateOrderStatus_moves_revenue 100 delivered None clerk
              (shopWithOrder 5 0 (oneWidgetOrder 2 pending unpaid) [])
              _ _ _ _
              ltac:(vm_compute; apply NoDup_singleton)
              ltac:(vm_compute; reflexivity)
              ltac:(vm_compute; reflexivity)
              ltac:(vm_compute; reflexivity))
    as (order & Hfind & _).
  exists order. split; [exact Hfind |].
  vm_compute in Hfind. injection Hfind as <-. reflexivity.
Defined.



Lemma filter_fresh (os : list Order.t) id :
  id ∉ map Order._id os ->
  filter (fun o' => Order._id o' ≠ id) os = os.
Proof.
  induction os as [| x os IH]; [reflexivity |].
  cbn [map]. intros [Hx Hos]%not_elem_of_cons.
  rewrite filter_cons, decide_True by (intros E; apply Hx; symmetry; exact E).
  rewrite (IH Hos). reflexivity.
Qed.

Lemma filter_out_one (os : list Order.t) id order :
  NoDup (map Order._id os) ->
  find (fun x => N.eqb (Order._id x) id) os = Some order ->
  Order.status order ≠ delivered ->
  Z.of_nat (length (filter (fun o' => Order._id o' ≠ Order._id order) os))
  = Z.of_nat (length os) - 1
  /\ withStatus delivered (filter (fun o' => Order._id o' ≠ Order._id order) os)
     = withStatus delivered os.
Proof.
  intros Hnd Hfind Hstatus.
  rewrite (find_id _ _ _ Hfind).
  induction os as [| x os IH]; [discriminate Hfind |].
  cbn [map] in Hnd. apply NoDup_cons in Hnd as [Hx Hnd].
  cbn [find] in Hfind. rewrite filter_cons.
  destruct (N.eqb_spec (Order._id x) id) as [E | E].
  - injection Hfind as <-. rewrite decide_False by (intros Hne; apply Hne; exact E).
    rewrite filter_fresh by (rewrite <- E; exact Hx).
    split; [cbn [length]; lia |].
    unfold withStatus. rewrite filter_cons, decide_False by exact Hstatus.
    reflexivity.
  - rewrite decide_True by exact E.
    destruct (IH Hnd Hfind) as [IH1 IH2]. split; [cbn [length]; lia |].
    unfold withStatus in *. rewrite !filter_cons, IH2. reflexivity.
Qed.

(** X27. Deleting an order takes exactly one order out of the statistics
    and never changes the total revenue or the posted transactions: only a
    pending order can be deleted, and a pending order carries no revenue.
    Order ids are distinct, as MongoDB keeps them. *)
Theorem deleteOrder_leaves_revenue :
  forall id st st' r r',
    NoDup (map Order._id (orders st)) ->
    deleteOrder id st = (st', Ok tt) ->
    getOrderStats st = (st, Ok r) ->
    getOrderStats st' = (st', Ok r') ->
    OrderStats.total r' = OrderStats.total r - 1
    /\ OrderStats.totalRevenue r' = OrderStats.totalRevenue r
    /\ transactions st' = transactions st.
Proof.
  intros id st st' r r' Hnd Hrun Hr Hr'.
  destruct (getOrderStats_Ok _ _ _ Hr) as [Ht Hrev].
  destruct (getOrderStats_Ok _ _ _ Hr') as [Ht' Hrev'].
  rewrite deleteOrder_run in Hrun.
  destruct (findOrder id st) as [order |] eqn:Hfind; [| discriminate Hrun].
  destruct (bool_decide (Order.status order = pending)) eqn:Hpending;
    [| discriminate Hrun].
  apply bool_decide_eq_true_1 in Hpending.
  injection Hrun as <-. cbn [orders transactions] in *.
  destruct (filter_out_one (orders st) id order Hnd Hfind) as [Hlen Hdel];
    [rewrite Hpending; discriminate |].
  split; [rewrite Ht, Ht'; exact Hlen |].
  split; [rewrite Hrev, Hrev', Hdel; reflexivity | reflexivity].
Qed.

Lemma deleteOrder_leaves_revenue_witness :
  exists r',
    snd (getOrderStats
           (fst (deleteOrder 100
                   (shopWithOrder 5 0 (oneWidgetOrder 2 pending unpaid) []))))
    = Ok r'
    /\ OrderStats.total r' = 0.
Proof.
  destruct (deleteOrder_leaves_revenue 100
              (shopWithOrder 5 0 (oneWidgetOrder 2 pending unpaid) [])
              _ _ _
              ltac:(vm_compute; apply NoDup_singleton)
              ltac:(vm_compute; reflexivity)
              ltac:(vm_compute; reflexivity)
              ltac:(vm_compute; reflexivity))
    as (Htotal & _).
  eexists. split; [vm_compute; reflexivity | exact Htotal].
Defined.
